(** * pa-estuary: the task queue, the workers and the S3 poll loop

    A shallow embedding of [config.py], [s3.py], [task.py], [worker.py] and
    [main.py].  Python objects become records, the attributes a task assigns
    after its construction live in an instance dictionary (reading one that
    was never assigned raises AttributeError), exceptions become the [Raise]
    branch of [outcome], and every call that leaves the process (boto3, [os],
    [shutil], [time.sleep]) is appended to a trace and answered by an
    [environment].  Calls to [log] are not modelled: they format values that
    are always defined at that point and never raise. *)

From Stdlib Require Import ZArith String Ascii List Lia.
From stdpp Require Import base option list strings gmap.

Set Default Proof Using "Type".
Local Open Scope string_scope.
Local Open Scope list_scope.
Local Open Scope Z_scope.

(** ** Python values, exceptions and strings *)

(** The exceptions the code can meet.  [ExternalError] stands for whatever
    boto3 or the operating system raises. *)
Inductive exn :=
| AssertionError (msg : string)
| KeyError (key : string)
| AttributeError (name : string)
| TypeError
| ValueError
| IndexError
| NotImplementedError (msg : string)
| ExternalError (code : string).

Inductive outcome (A : Type) :=
| Ok (a : A)
| Raise (e : exn).
Arguments Ok {A} a.
Arguments Raise {A} e.

(** Values stored in [TaskMessage.args] and in instance attributes. *)
Inductive pyval :=
| VStr (s : string)
| VInt (z : Z).

(** [s[n:]] for [0 <= n]. *)
Fixpoint slice_from (n : nat) (s : string) : string :=
  match n, s with
  | O, _ => s
  | S _, EmptyString => EmptyString
  | S n', String _ rest => slice_from n' rest
  end.

(** [s.split(sep)] for a one-character separator. *)
Fixpoint split (sep : ascii) (s : string) : list string :=
  match s with
  | EmptyString => [EmptyString]
  | String c rest =>
      if Ascii.eqb c sep then EmptyString :: split sep rest
      else match split sep rest with
           | [] => [String c EmptyString]
           | h :: t => String c h :: t
           end
  end.

(** [x in l] for a list of strings. *)
Definition str_in (x : string) (l : list string) : bool :=
  existsb (String.eqb x) l.

(** ** config.py *)

Module AppConfig.
Definition worker_count : Z := 1.
Definition sleep_time : Z := 15.
Definition root : string := "C:/Altegra/Code/pa-estuary".
End AppConfig.

Module S3Config.
Definition bucket : string := "aws-dwred-01.altegrahealth.com".
Definition root : string := "pag_estuary".
End S3Config.

(** ** The outside world *)

(** One entry of a [list_objects] response's ['Contents']. *)
Record s3_object := mk_s3_object {
  Key : string;
  LastModified : Z;   (* an instant, counted from 0001-01-01 00:00 UTC *)
  Size : Z;
}.

(** The part of a [list_objects] response that [list_files] reads.
    [Contents = None] means the key ['Contents'] is absent. *)
Record list_objects_response := mk_response {
  Contents : option (list s3_object);
  IsTruncated : bool;
}.

(** Every call that leaves the process. *)
Inductive call :=
| ListObjects (Bucket Prefix Marker : string) (MaxKeys : Z)
| UploadFile (local bucket remote : string)
| DownloadFile (bucket remote local : string)
| CopyObject (Bucket CopySource dest : string)
| DeleteObject (Bucket key : string)
| Makedirs (path : string)
| Copyfile (src dst : string)
| Remove (path : string)
| Rmdir (path : string)
| Sleep (num den : Z).   (* time.sleep(num / den) *)

(** What the outside world answers, given the calls issued before. *)
Record environment := mk_environment {
  env_list_objects : list call -> string -> string -> string -> Z ->
                     outcome list_objects_response;
  env_fault : list call -> call -> option exn;
}.

(** ** A state and exception monad *)

Definition M (S A : Type) : Type := S -> outcome A * S.

Definition ret {S A} (a : A) : M S A := fun s => (Ok a, s).

Definition raise {S A} (e : exn) : M S A := fun s => (Raise e, s).

Definition bind {S A B} (m : M S A) (k : A -> M S B) : M S B :=
  fun s => match m s with
           | (Ok a, s') => k a s'
           | (Raise e, s') => (Raise e, s')
           end.

(** [try: m except: h] with a bare [except], which catches everything. *)
Definition try_except {S A} (m : M S A) (h : exn -> M S A) : M S A :=
  fun s => match m s with
           | (Ok a, s') => (Ok a, s')
           | (Raise e, s') => h e s'
           end.

(** [try: m finally: f]: [f] runs on both exits; when [f] raises, its
    exception replaces the pending one. *)
Definition try_finally {S A} (m : M S A) (f : M S unit) : M S A :=
  fun s => match m s with
           | (r, s') => match f s' with
                        | (Ok _, s'') => (r, s'')
                        | (Raise e, s'') => (Raise e, s'')
                        end
           end.

Definition gets {S A} (f : S -> A) : M S A := fun s => (Ok (f s), s).

Definition modify {S} (f : S -> S) : M S unit := fun s => (Ok tt, f s).

(** Reading an attribute that may not have been assigned. *)
Definition getattr {S A} (name : string) (f : S -> option A) : M S A :=
  fun s => match f s with
           | Some a => (Ok a, s)
           | None => (Raise (AttributeError name), s)
           end.

Declare Scope py_scope.
Delimit Scope py_scope with py.
Notation "'let*' x := m 'in' k" := (bind m (fun x => k))
  (at level 10, x name, m at level 100, k at level 200) : py_scope.
Notation "m ;; k" := (bind m (fun _ => k))
  (at level 100, k at level 200, right associativity) : py_scope.
Local Open Scope py_scope.

(** States that carry the trace of external calls. *)
Class HasTrace (S : Type) := {
  get_trace : S -> list call;
  set_trace : list call -> S -> S;
}.

#[global] Instance trace_HasTrace : HasTrace (list call) :=
  {| get_trace := fun t => t; set_trace := fun t _ => t |}.

Section World.
Context (env : environment).
Context {S : Type} `{HasTrace S}.

(** An external call without a result the code reads: it is recorded, and
    the environment decides whether it raises. *)
Definition extcall (c : call) : M S unit :=
  fun s =>
    let t := get_trace s in
    match env_fault env t c with
    | Some e => (Raise e, set_trace (t ++ [c]) s)
    | None => (Ok tt, set_trace (t ++ [c]) s)
    end.

(** [client.list_objects(Bucket=, Prefix=, Marker=, MaxKeys=)]. *)
Definition client_list_objects (Bucket Prefix Marker : string) (MaxKeys : Z)
  : M S list_objects_response :=
  fun s =>
    let t := get_trace s in
    (env_list_objects env t Bucket Prefix Marker MaxKeys,
     set_trace (t ++ [ListObjects Bucket Prefix Marker MaxKeys]) s).

(** [time.sleep(num / den)] raises ValueError on a negative length. *)
Definition time_sleep (num den : Z) : M S unit :=
  if num <? 0 then raise ValueError
  else fun s => (Ok tt, set_trace (get_trace s ++ [Sleep num den]) s).
End World.

(** ** s3.py *)

Module S3Helper.
Section S3Helper.
Context (env : environment).
Context {S : Type} `{HasTrace S}.

(** The body of [while not done] in [list_files]; [None] when the fuel
    runs out before the store reports an untruncated page. *)
Fixpoint list_files_loop (fuel : nat) (bucket prefix marker : string)
    (result : list s3_object) (total_keys : Z) (s : S)
  : option (outcome (list s3_object) * S) :=
  match fuel with
  | O => None
  | Datatypes.S fuel' =>
      match client_list_objects env bucket prefix marker 1000 s with
      | (Raise e, s') => Some (Raise e, s')
      | (Ok response, s') =>
          match Contents response with
          | None => Some (Ok result, s')
          | Some objects =>
              let result' := result ++ objects in
              let total_keys' := total_keys + Z.of_nat (length objects) in
              if IsTruncated response then
                match last objects with
                | None => Some (Raise IndexError, s')
                | Some o =>
                    list_files_loop fuel' bucket prefix (Key o)
                      result' total_keys' s'
                end
              else Some (Ok result', s')
          end
      end
  end.

Definition list_files (fuel : nat) (bucket prefix : string) (s : S)
  : option (outcome (list s3_object) * S) :=
  list_files_loop fuel bucket prefix "" [] 0 s.

Definition upload_file (local bucket remote : string) : M S unit :=
  extcall env (UploadFile local bucket remote).

(** The [bucket] argument is not used: the request names
    [S3Config.bucket]. *)
Definition download_file (bucket remote local : string) : M S unit :=
  extcall env (DownloadFile S3Config.bucket remote local).

Definition copy_file (bucket source destination : string) : M S unit :=
  extcall env (CopyObject bucket (bucket +:+ "/" +:+ source) destination).

Definition delete_file (bucket key : string) : M S unit :=
  extcall env (DeleteObject bucket key).

Definition move_file (bucket source destination : string) : M S unit :=
  copy_file bucket source destination ;;
  delete_file bucket source.
End S3Helper.
End S3Helper.

(** ** task.py *)

Module TaskMessage.
Record t := mk {
  id : Z;
  type : string;
  args : gmap string pyval;
}.
End TaskMessage.

(** The three values of [StatusMessage.value]. *)
Inductive status := in_progress | success | failure.

Module StatusMessage.
Record t := mk {
  value : status;
  task_message : TaskMessage.t;
}.
End StatusMessage.

(** The classes of the module that derive from [Task], and [Task] itself. *)
Inductive task_class := Task | TestTask | KillSelfTask | ImportTask.

(** What a name of the module is bound to.  Calling any global other than a
    task class with the three arguments of [to_task] raises TypeError: the
    value is not callable, or its initializer takes other arguments. *)
Inductive global :=
| GTaskClass (c : task_class)
| GOther.

(** [globals()] of task.py. *)
Definition globals : gmap string global :=
  list_to_map
    [("__name__", GOther); ("__doc__", GOther); ("__package__", GOther);
     ("__loader__", GOther); ("__spec__", GOther); ("__file__", GOther);
     ("__cached__", GOther); ("__builtins__", GOther);
     ("logging", GOther); ("os", GOther); ("shutil", GOther);
     ("time", GOther); ("AppConfig", GOther); ("S3Config", GOther);
     ("S3Helper", GOther); ("log", GOther);
     ("TaskMessage", GOther); ("StatusMessage", GOther);
     ("Task", GTaskClass Task); ("TestTask", GTaskClass TestTask);
     ("KillSelfTask", GTaskClass KillSelfTask);
     ("ImportTask", GTaskClass ImportTask)].

(** A worker object as its own process sees it: the two queues it was given
    and its [stop] attribute. *)
Module Worker.
Record t := mk {
  task_queue : list TaskMessage.t;
  status_queue : list StatusMessage.t;
  stop : bool;
}.
Definition set_stop (b : bool) (w : t) : t :=
  mk (task_queue w) (status_queue w) b.
Definition set_task_queue (q : list TaskMessage.t) (w : t) : t :=
  mk q (status_queue w) (stop w).
Definition set_status_queue (q : list StatusMessage.t) (w : t) : t :=
  mk (task_queue w) q (stop w).
End Worker.

(** A task object: its class, the attributes [Task.__init__] assigns, and
    the instance dictionary for the attributes subclasses assign later. *)
Module TaskObject.
Record t := mk {
  class : task_class;
  task_message : TaskMessage.t;
  status_message : StatusMessage.t;
  dict : gmap string pyval;
}.
Definition set_status_message (m : StatusMessage.t) (o : t) : t :=
  mk (class o) (task_message o) m (dict o).
Definition set_dict (d : gmap string pyval) (o : t) : t :=
  mk (class o) (task_message o) (status_message o) d.
End TaskObject.

(** The state a task method runs in: the task itself, the worker it holds a
    reference to, and the calls issued so far. *)
Record st := mk_st {
  self : TaskObject.t;
  worker : Worker.t;
  trace : list call;
}.

Definition set_self (o : TaskObject.t) (s : st) : st :=
  mk_st o (worker s) (trace s).
Definition set_worker (w : Worker.t) (s : st) : st :=
  mk_st (self s) w (trace s).

#[global] Instance st_HasTrace : HasTrace st :=
  {| get_trace := trace;
     set_trace := fun t s => mk_st (self s) (worker s) t |}.

(** [self.name], AttributeError when it was never assigned. *)
Definition self_attr (name : string) : M st pyval :=
  getattr name (fun s => TaskObject.dict (self s) !! name).

(** [self.name = v]. *)
Definition self_setattr (name : string) (v : pyval) : M st unit :=
  modify (fun s =>
    set_self (TaskObject.set_dict (<[name := v]> (TaskObject.dict (self s)))
                (self s)) s).

(** A value used where the code needs a string (slicing, a path handed to
    boto3 or [os]): TypeError for a number. *)
Definition as_str {S} (v : pyval) : M S string :=
  match v with
  | VStr x => ret x
  | VInt _ => raise TypeError
  end.

Definition self_str (name : string) : M st string :=
  let* v := self_attr name in as_str v.

Definition assert_ {S} (b : bool) (msg : string) : M S unit :=
  if b then ret tt else raise (AssertionError msg).

(** [l[i]] for [0 <= i]. *)
Definition index {S} (l : list string) (i : nat) : M S string :=
  match l !! i with
  | Some x => ret x
  | None => raise IndexError
  end.

(** [Task.__init__], then what the subclass initializer adds. *)
Definition Task_init (c : task_class) (task_message : TaskMessage.t)
  : TaskObject.t :=
  TaskObject.mk c task_message
    (StatusMessage.mk in_progress task_message) ∅.

Definition TestTask_init (task_message : TaskMessage.t)
  : outcome TaskObject.t :=
  let o := Task_init TestTask task_message in
  match TaskMessage.args task_message !! "wait_time" with
  | Some v => Ok (TaskObject.set_dict (<["wait_time" := v]> (TaskObject.dict o)) o)
  | None => Raise (KeyError "wait_time")
  end.

Definition ImportTask_init (task_message : TaskMessage.t)
  : outcome TaskObject.t :=
  let o := Task_init ImportTask task_message in
  match TaskMessage.args task_message !! "file_path" with
  | Some v => Ok (TaskObject.set_dict (<["file_path" := v]> (TaskObject.dict o)) o)
  | None => Raise (KeyError "file_path")
  end.

(** [TaskMessage.to_task]: [globals()[self.type](worker, self, s3)]. *)
Definition to_task (self : TaskMessage.t) : outcome TaskObject.t :=
  match globals !! TaskMessage.type self with
  | None => Raise (KeyError (TaskMessage.type self))
  | Some GOther => Raise TypeError
  | Some (GTaskClass Task) => Ok (Task_init Task self)
  | Some (GTaskClass KillSelfTask) => Ok (Task_init KillSelfTask self)
  | Some (GTaskClass TestTask) => TestTask_init self
  | Some (GTaskClass ImportTask) => ImportTask_init self
  end.

(** A worker process: the worker object and the calls issued so far. *)
Record process := mk_process {
  p_worker : Worker.t;
  p_trace : list call;
}.

(** Where a loop stands after some passes: still [Running], ended because
    the [stop] attribute was set, [Waiting] in a blocking [get] on an empty
    queue, or left by an exception. *)
Inductive run_end :=
| Running
| Stopped
| Waiting
| Crashed (e : exn).

Section Tasks.
Context (env : environment).

Definition os_makedirs (path : pyval) : M st unit :=
  let* p := as_str path in extcall env (Makedirs p).
Definition os_remove (path : pyval) : M st unit :=
  let* p := as_str path in extcall env (Remove p).
Definition os_rmdir (path : pyval) : M st unit :=
  let* p := as_str path in extcall env (Rmdir p).
Definition shutil_copyfile (src dst : pyval) : M st unit :=
  let* a := as_str src in
  let* b := as_str dst in
  extcall env (Copyfile a b).

(** The gateway methods at values that were read from attributes. *)
Definition s3_download_file (bucket : string) (remote local : pyval)
  : M st unit :=
  let* r := as_str remote in
  let* l := as_str local in
  S3Helper.download_file env bucket r l.
Definition s3_upload_file (local : pyval) (bucket : string) (remote : pyval)
  : M st unit :=
  let* l := as_str local in
  let* r := as_str remote in
  S3Helper.upload_file env l bucket r.
Definition s3_move_file (bucket : string) (source destination : pyval)
  : M st unit :=
  let* a := as_str source in
  let* b := as_str destination in
  S3Helper.move_file env bucket a b.
Definition s3_delete_file (bucket : string) (key : pyval) : M st unit :=
  let* k := as_str key in
  S3Helper.delete_file env bucket k.

(** *** Task *)

Definition Task_do : M st unit :=
  raise (NotImplementedError "Task subclass must override do()").
Definition Task_cleanup : M st unit :=
  raise (NotImplementedError "Task subclass must override cleanup()").

(** *** TestTask *)

(** [time.sleep(self.wait_time / 3)]. *)
Definition TestTask_sleep : M st unit :=
  let* w := self_attr "wait_time" in
  match w with
  | VInt z => time_sleep z 3
  | VStr _ => raise TypeError
  end.

Definition TestTask_do : M st unit :=
  TestTask_sleep ;; TestTask_sleep ;; TestTask_sleep.

Definition TestTask_cleanup : M st unit := ret tt.

(** *** KillSelfTask *)

Definition KillSelfTask_do : M st unit :=
  modify (fun s => set_worker (Worker.set_stop true (worker s)) s).

Definition KillSelfTask_cleanup : M st unit := ret tt.

(** *** ImportTask *)

Definition file_types : list string :=
  ["test1"; "test2"; "test3"; "mmr"; "mor"].

Definition _parse : M st unit :=
  let* file_path := self_str "file_path" in
  let s := slice_from (String.length S3Config.root + 1)%nat file_path in
  let elements := split "/" s in
  assert_ (length elements =? 3)%nat ("Invalid file_path: " +:+ file_path) ;;
  let* client := index elements 1 in
  self_setattr "client" (VStr client) ;;
  let* file_name := index elements 2 in
  self_setattr "file_name" (VStr file_name) ;;
  let elements := split "_" file_name in
  assert_ (length elements =? 2)%nat ("Invalid file_name: " +:+ file_name) ;;
  let* file_type := index elements 0 in
  self_setattr "file_type" (VStr file_type) ;;
  assert_ (str_in file_type file_types) ("Invalid file_name: " +:+ file_name) ;;
  let* version := index elements 1 in
  self_setattr "version" (VStr version) ;;
  self_setattr "download_folder"
    (VStr (AppConfig.root +:+ "/data/download/" +:+ client)) ;;
  self_setattr "download_path"
    (VStr (AppConfig.root +:+ "/data/download/" +:+ client +:+ "/" +:+ file_name)) ;;
  self_setattr "processed_folder"
    (VStr (AppConfig.root +:+ "/data/processed/" +:+ client)) ;;
  self_setattr "processed_path"
    (VStr (AppConfig.root +:+ "/data/processed/" +:+ client +:+ "/" +:+ file_name)) ;;
  self_setattr "upload_path"
    (VStr (S3Config.root +:+ "/processed/" +:+ client +:+ "/" +:+ file_name)) ;;
  self_setattr "accepted_path"
    (VStr (S3Config.root +:+ "/accepted/" +:+ client +:+ "/" +:+ file_name)) ;;
  self_setattr "rejected_path"
    (VStr (S3Config.root +:+ "/rejected/" +:+ client +:+ "/" +:+ file_name)).

Definition _download : M st unit :=
  let* download_folder := self_attr "download_folder" in
  os_makedirs download_folder ;;
  let* file_path := self_attr "file_path" in
  let* download_path := self_attr "download_path" in
  s3_download_file S3Config.bucket file_path download_path.

Definition _preprocess : M st unit :=
  let* processed_folder := self_attr "processed_folder" in
  os_makedirs processed_folder ;;
  let* download_path := self_attr "download_path" in
  let* processed_path := self_attr "processed_path" in
  shutil_copyfile download_path processed_path.

Definition _upload : M st unit :=
  let* processed_path := self_attr "processed_path" in
  let* upload_path := self_attr "upload_path" in
  s3_upload_file processed_path S3Config.bucket upload_path.

Definition _import : M st unit := ret tt.

Definition _postprocess : M st unit := ret tt.

Definition ImportTask_do : M st unit :=
  _parse ;; _download ;; _preprocess ;; _upload ;; _import ;; _postprocess.

Definition ImportTask_cleanup : M st unit :=
  let* v := gets (fun s => StatusMessage.value (TaskObject.status_message (self s))) in
  (match v with
   | success =>
       let* file_path := self_attr "file_path" in
       let* accepted_path := self_attr "accepted_path" in
       s3_move_file S3Config.bucket file_path accepted_path
   | _ =>
       let* file_path := self_attr "file_path" in
       let* rejected_path := self_attr "rejected_path" in
       s3_move_file S3Config.bucket file_path rejected_path
   end) ;;
  try_except
    (let* download_path := self_attr "download_path" in
     os_remove download_path ;;
     let* download_folder := self_attr "download_folder" in
     os_rmdir download_folder)
    (fun _ => ret tt) ;;
  try_except
    (let* processed_path := self_attr "processed_path" in
     os_remove processed_path ;;
     let* processed_folder := self_attr "processed_folder" in
     os_rmdir processed_folder)
    (fun _ => ret tt) ;;
  let* upload_path := self_attr "upload_path" in
  s3_delete_file S3Config.bucket upload_path.

(** *** Method dispatch on the class of [self] *)

Definition do : M st unit :=
  fun s =>
    match TaskObject.class (self s) with
    | Task => Task_do s
    | TestTask => TestTask_do s
    | KillSelfTask => KillSelfTask_do s
    | ImportTask => ImportTask_do s
    end.

Definition cleanup : M st unit :=
  fun s =>
    match TaskObject.class (self s) with
    | Task => Task_cleanup s
    | TestTask => TestTask_cleanup s
    | KillSelfTask => KillSelfTask_cleanup s
    | ImportTask => ImportTask_cleanup s
    end.

(** ** worker.py *)

(** [task.status_message.value = v]. *)
Definition set_status_value (v : status) : M st unit :=
  modify (fun s =>
    let o := self s in
    let m := TaskObject.status_message o in
    set_self (TaskObject.set_status_message
                (StatusMessage.mk v (StatusMessage.task_message m)) o) s).

(** [self.status_queue.put(task.status_message)]. *)
Definition put_status : M st unit :=
  modify (fun s =>
    let w := worker s in
    set_worker (Worker.set_status_queue
                  (Worker.status_queue w ++ [TaskObject.status_message (self s)])
                  w) s).

(** The [try] / [except] / [finally] statement of [Worker.run]. *)
Definition do_task : M st unit :=
  try_finally
    (try_except
       (do ;; set_status_value success ;; put_status)
       (fun _ => set_status_value failure ;; put_status))
    cleanup.

(** The loop body after [task_queue.get()] has returned [task_message]:
    the conversion to a task, which is not inside the [try], then the
    guarded execution. *)
Definition claim (task_message : TaskMessage.t) : M process unit :=
  fun p =>
    match to_task task_message with
    | Raise e => (Raise e, p)
    | Ok task =>
        match do_task (mk_st task (p_worker p) (p_trace p)) with
        | (r, s) => (r, mk_process (worker s) (trace s))
        end
    end.

(** One pass through [while not self.stop]: the test of the flag, the
    blocking [get], and the loop body. *)
Definition Worker_iteration (p : process) : run_end * process :=
  if Worker.stop (p_worker p) then (Stopped, p)
  else
    match Worker.task_queue (p_worker p) with
    | [] => (Waiting, p)
    | task_message :: rest =>
        let p1 := mk_process (Worker.set_task_queue rest (p_worker p))
                    (p_trace p) in
        match claim task_message p1 with
        | (Ok _, p2) => (Running, p2)
        | (Raise e, p2) => (Crashed e, p2)
        end
    end.

(** [Worker.run], for at most [fuel] passes. *)
Fixpoint Worker_run (fuel : nat) (p : process) : run_end * process :=
  match fuel with
  | O => (Running, p)
  | S fuel' =>
      match Worker_iteration p with
      | (Running, p') => Worker_run fuel' p'
      | (e, p') => (e, p')
      end
  end.
End Tasks.

(** ** main.py *)

(** The entries of [Main.looped_functions]. *)
Inductive looped_function := check_s3_fn | check_status_fn.

Module Main.
Record t := mk {
  task_queue : list TaskMessage.t;
  status_queue : list StatusMessage.t;
  looped_functions : list looped_function;
  max_s3_time : Z;
  stop : bool;
}.
Definition set_task_queue (q : list TaskMessage.t) (m : t) : t :=
  mk q (status_queue m) (looped_functions m) (max_s3_time m) (stop m).
Definition set_status_queue (q : list StatusMessage.t) (m : t) : t :=
  mk (task_queue m) q (looped_functions m) (max_s3_time m) (stop m).
Definition set_max_s3_time (z : Z) (m : t) : t :=
  mk (task_queue m) (status_queue m) (looped_functions m) z (stop m).
End Main.

(** The main process: the [Main] object, the class attribute
    [TaskMessage.next_id], and the calls issued so far. *)
Record mstate := mk_mstate {
  main : Main.t;
  next_id : Z;
  m_trace : list call;
}.

Definition set_main (m : Main.t) (s : mstate) : mstate :=
  mk_mstate m (next_id s) (m_trace s).

#[global] Instance mstate_HasTrace : HasTrace mstate :=
  {| get_trace := m_trace;
     set_trace := fun t s => mk_mstate (main s) (next_id s) t |}.

(** [TaskMessage.__init__]. *)
Definition TaskMessage_init (type : string) (args : gmap string pyval)
  : M mstate TaskMessage.t :=
  modify (fun s => mk_mstate (main s) (next_id s + 1) (m_trace s)) ;;
  let* id := gets next_id in
  ret (TaskMessage.mk id type args).

(** [self.task_queue.put(message)]. *)
Definition task_queue_put (message : TaskMessage.t) : M mstate unit :=
  modify (fun s =>
    set_main (Main.set_task_queue (Main.task_queue (main s) ++ [message])
                (main s)) s).

(** [Main.create_test_task]. *)
Definition create_test_task : M mstate unit :=
  let* message := TaskMessage_init "TestTask" {["wait_time" := VInt 2]} in
  task_queue_put message.

Section MainProcess.
Context (env : environment).

(** The [for result in results] loop of [check_s3]; it returns the final
    [new_s3_time]. *)
Fixpoint check_s3_loop (results : list s3_object) (new_s3_time : Z)
  : M mstate Z :=
  match results with
  | [] => ret new_s3_time
  | result :: rest =>
      if Size result =? 0 then check_s3_loop rest new_s3_time
      else
        let* max_s3_time := gets (fun s => Main.max_s3_time (main s)) in
        if LastModified result <=? max_s3_time
        then check_s3_loop rest new_s3_time
        else
          let new_s3_time :=
            if LastModified result >? new_s3_time
            then LastModified result else new_s3_time in
          let* message :=
            TaskMessage_init "ImportTask"
              {["file_path" := VStr (Key result)]} in
          task_queue_put message ;;
          check_s3_loop rest new_s3_time
  end.

(** [check_s3] once [list_files] has returned [results]. *)
Definition check_s3_scan (results : list s3_object) : M mstate unit :=
  let* new_s3_time := gets (fun s => Main.max_s3_time (main s)) in
  let* new_s3_time := check_s3_loop results new_s3_time in
  modify (fun s => set_main (Main.set_max_s3_time new_s3_time (main s)) s).

(** [Main.check_s3]; [None] when [list_files] does not return within
    [fuel] pages. *)
Definition check_s3 (fuel : nat) (s : mstate)
  : option (outcome unit * mstate) :=
  match S3Helper.list_files env fuel S3Config.bucket
          (S3Config.root +:+ "/pending/") s with
  | None => None
  | Some (Raise e, s1) => Some (Raise e, s1)
  | Some (Ok results, s1) => Some (check_s3_scan results s1)
  end.

(** [while not self.status_queue.empty(): self.status_queue.get(True, 5)]:
    what is left of the queue. *)
Fixpoint drain (q : list StatusMessage.t) : list StatusMessage.t :=
  match q with
  | [] => []
  | message :: rest => drain rest
  end.

Definition check_status : M mstate unit :=
  modify (fun s =>
    set_main (Main.set_status_queue (drain (Main.status_queue (main s)))
                (main s)) s).

Definition call_looped (fuel : nat) (f : looped_function) (s : mstate)
  : option (outcome unit * mstate) :=
  match f with
  | check_s3_fn => check_s3 fuel s
  | check_status_fn => Some (check_status s)
  end.

(** [for f in self.looped_functions: try: f() except: log.error(...)]. *)
Fixpoint call_all (fuel : nat) (fs : list looped_function) (s : mstate)
  : option mstate :=
  match fs with
  | [] => Some s
  | f :: rest =>
      match call_looped fuel f s with
      | None => None
      | Some (_, s') => call_all fuel rest s'
      end
  end.

(** One pass through [while not self.stop] of [Main.run]. *)
Definition Main_iteration (fuel : nat) (s : mstate)
  : option (run_end * mstate) :=
  if Main.stop (main s) then Some (Stopped, s)
  else
    match call_all fuel (Main.looped_functions (main s)) s with
    | None => None
    | Some s1 =>
        match time_sleep AppConfig.sleep_time 1 s1 with
        | (Ok _, s2) => Some (Running, s2)
        | (Raise e, s2) => Some (Crashed e, s2)
        end
    end.

(** [Main.run], for at most [n] passes. *)
Fixpoint Main_run (n fuel : nat) (s : mstate) : option (run_end * mstate) :=
  match n with
  | O => Some (Running, s)
  | S n' =>
      match Main_iteration fuel s with
      | Some (Running, s') => Main_run n' fuel s'
      | other => other
      end
  end.
End MainProcess.

(** [Main.__init__] after the workers have been started. *)
Definition Main_init : mstate :=
  mk_mstate (Main.mk [] [] [check_s3_fn; check_status_fn] 0 false) 0 [].

(** ** The processes together *)

(** The coordinator's [stop], the [stop] attribute of each worker process,
    the two queues all of them share, and the calls issued so far. *)
Record system := mk_system {
  sys_main_stop : bool;
  sys_worker_stop : list bool;
  sys_task_queue : list TaskMessage.t;
  sys_status_queue : list StatusMessage.t;
  sys_trace : list call;
}.

(** Worker [i] makes one pass through its loop. *)
Definition system_worker_iteration (env : environment) (i : nat)
    (sys : system) : option (run_end * system) :=
  match sys_worker_stop sys !! i with
  | None => None
  | Some stop =>
      let p := mk_process
                 (Worker.mk (sys_task_queue sys) (sys_status_queue sys) stop)
                 (sys_trace sys) in
      match Worker_iteration env p with
      | (r, p') =>
          Some (r, mk_system (sys_main_stop sys)
                     (<[i := Worker.stop (p_worker p')]> (sys_worker_stop sys))
                     (Worker.task_queue (p_worker p'))
                     (Worker.status_queue (p_worker p'))
                     (p_trace p'))
      end
  end.

(** ** Concrete inputs *)

(** A store with nothing under the prefix, where no call fails. *)
Definition quiet : environment :=
  mk_environment (fun _ _ _ _ _ => Ok (mk_response None false))
                 (fun _ _ => None).

(** A store that answers every listing with the one page [objects]. *)
Definition one_page (objects : list s3_object) : environment :=
  mk_environment (fun _ _ _ _ _ => Ok (mk_response (Some objects) false))
                 (fun _ _ => None).

(** A store that cannot be reached. *)
Definition unreachable : environment :=
  mk_environment (fun _ _ _ _ _ => Raise (ExternalError "EndpointConnectionError"))
                 (fun _ _ => Some (ExternalError "EndpointConnectionError")).

Definition import_message (id : Z) (file_path : string) : TaskMessage.t :=
  TaskMessage.mk id "ImportTask" {["file_path" := VStr file_path]}.

Definition test_message (id : Z) (wait_time : Z) : TaskMessage.t :=
  TaskMessage.mk id "TestTask" {["wait_time" := VInt wait_time]}.

Definition kill_message (id : Z) : TaskMessage.t :=
  TaskMessage.mk id "KillSelfTask" ∅.

(** A worker process that has just started, with [q] on the task queue. *)
Definition fresh_worker (q : list TaskMessage.t) : process :=
  mk_process (Worker.mk q [] false) [].

(** The calls that copy an object to [destination], the first half of
    [move_file]. *)
Definition copies_to (destination : string) (c : call) : bool :=
  match c with
  | CopyObject _ _ dest => String.eqb dest destination
  | _ => false
  end.

(** The calls that are part of some [move_file]. *)
Definition is_copy (c : call) : bool :=
  match c with
  | CopyObject _ _ _ => true
  | _ => false
  end.

Definition is_sleep (c : call) : bool :=
  match c with
  | Sleep _ _ => true
  | _ => false
  end.

(** The objects of a listing for which [check_s3] builds a message, given
    the high-water mark before the cycle: those it does not skip. *)
Definition produced (mark : Z) (results : list s3_object) : list s3_object :=
  filter (fun o => Size o <> 0 /\ mark < LastModified o) results.

(** The objects that produce a message in a cycle, given how the listing
    ended: none when it raised. *)
Definition produced_in_cycle (mark : Z) (listing : outcome (list s3_object))
  : list s3_object :=
  match listing with
  | Ok results => produced mark results
  | Raise _ => []
  end.

(** The messages built for [objs], in order, when [TaskMessage.next_id] is
    [id] before the first of them. *)
Fixpoint import_messages (id : Z) (objs : list s3_object)
  : list TaskMessage.t :=
  match objs with
  | [] => []
  | o :: rest =>
      TaskMessage.mk (id + 1) "ImportTask" {["file_path" := VStr (Key o)]}
      :: import_messages (id + 1) rest
  end.

(** The running maximum [new_s3_time] after the objects [objs]. *)
Fixpoint newest (new_s3_time : Z) (objs : list s3_object) : Z :=
  match objs with
  | [] => new_s3_time
  | o :: rest =>
      newest (if LastModified o >? new_s3_time
              then LastModified o else new_s3_time) rest
  end.

(** A listing with two new files, a folder marker of size zero and a file
    older than the mark [20]; the second new file is older than the first. *)
Definition sample_listing : list s3_object :=
  [mk_s3_object "pag_estuary/pending/clientA/test1_20170101.csv" 50 120;
   mk_s3_object "pag_estuary/pending/clientA/" 70 0;
   mk_s3_object "pag_estuary/pending/clientB/mmr_20170201.csv" 40 300;
   mk_s3_object "pag_estuary/pending/clientB/old_20160101.csv" 10 5].

(** The main process between two cycles, with high-water mark [mark]. *)
Definition polling (mark : Z) : mstate :=
  mk_mstate (Main.mk [] [] [check_s3_fn; check_status_fn] mark false) 0 [].

(** [s] after one [list_objects] request for the pending folder. *)
Definition listed (s : mstate) : mstate :=
  mk_mstate (main s) (next_id s)
    (m_trace s
     ++ [ListObjects S3Config.bucket (S3Config.root +:+ "/pending/") "" 1000]).

(** A store whose listing fails. *)
Definition listing_fails : environment :=
  mk_environment (fun _ _ _ _ _ => Raise (ExternalError "AccessDenied"))
                 (fun _ _ => None).

(** The names [globals()] binds to [Task] or to one of its subclasses. *)
Definition task_class_names : list string :=
  ["Task"; "TestTask"; "KillSelfTask"; "ImportTask"].

(** The task object of [task_message] after the [try] and [except] clauses
    of [Worker.run], which is the state [cleanup] starts from. *)
Definition before_cleanup (env : environment) (task_message : TaskMessage.t)
  : option st :=
  match to_task task_message with
  | Raise _ => None
  | Ok task =>
      match try_except
              (do env ;; set_status_value success ;; put_status)
              (fun _ => set_status_value failure ;; put_status)
              (mk_st task (Worker.mk [] [] false) []) with
      | (_, s) => Some s
      end
  end.

(** ** Notions the further properties are stated with *)

(** States whose trace can be read back after it was written. *)
Class HasTraceLaws (S : Type) `{HasTrace S} := {
  get_set_trace : forall (t : list call) (s : S), get_trace (set_trace t s) = t;
  set_set_trace : forall (t t' : list call) (s : S),
    set_trace t' (set_trace t s) = set_trace t' s;
}.

(** [c] occurs in [s]. *)
Fixpoint occurs (c : ascii) (s : string) : bool :=
  match s with
  | EmptyString => false
  | String c' rest => Ascii.eqb c' c || occurs c rest
  end.

Definition is_list (c : call) : bool :=
  match c with
  | ListObjects _ _ _ _ => true
  | _ => false
  end.

Definition is_delete (c : call) : bool :=
  match c with
  | DeleteObject _ _ => true
  | _ => false
  end.

(** The number of [list_objects] requests in a trace. *)
Definition listings (t : list call) : nat :=
  length (filter (fun c => is_list c = true) t).

(** The marker that continues a listing after the pages before page [k]:
    the key of the last object of page [k - 1]. *)
Definition marker_after (pages : list (list s3_object)) (k : nat) : string :=
  match k with
  | O => ""
  | S k' =>
      match pages !! k' with
      | Some page => match last page with
                     | Some o => Key o
                     | None => ""
                     end
      | None => ""
      end
  end.

(** A store that holds [pages] and hands them out one per request, each
    marked as truncated except the last.  It refuses a request whose marker
    is not the last key of the page before, it answers without ['Contents']
    when no page is left, and request number [k] raises [e] when [failure]
    is [Some (k, e)]. *)
Definition paged_store (pages : list (list s3_object))
    (failure : option (nat * exn)) : environment :=
  mk_environment
    (fun t _ _ marker _ =>
       let k := listings t in
       let answer :=
         match pages !! k with
         | None => Ok (mk_response None false)
         | Some page =>
             if String.eqb marker (marker_after pages k)
             then Ok (mk_response (Some page)
                        (bool_decide (S k < length pages)%nat))
             else Raise (ExternalError "InvalidArgument")
         end in
       match failure with
       | Some (k', e) => if Nat.eqb k k' then Raise e else answer
       | None => answer
       end)
    (fun _ _ => None).

(** The [n] requests, from number [first] on, that page through [pages]. *)
Definition list_requests (bucket prefix : string)
    (pages : list (list s3_object)) (first n : nat) : list call :=
  map (fun k => ListObjects bucket prefix (marker_after pages k) 1000)
    (seq first n).

(** [m] takes every state to one that is related to it by [R], whether it
    returns or raises. *)
Definition preserves {S A : Type} (R : relation S) (m : M S A) : Prop :=
  forall s r s', m s = (r, s') -> R s s'.

(** The states that agree on [f]. *)
Definition keeps {S X : Type} (f : S -> X) : relation S :=
  fun s s' => f s' = f s.

(** The second state has the trace of the first, followed by calls that all
    satisfy [P]. *)
Definition issues (P : call -> bool) : relation st :=
  fun s s' => exists l, trace s' = trace s ++ l /\ Forall (fun c => P c = true) l.

(** The calls a task may issue: no listing, and a request to the store
    only for [S3Config.bucket]. *)
Definition task_call (c : call) : bool :=
  match c with
  | ListObjects _ _ _ _ => false
  | UploadFile _ bucket _ => String.eqb bucket S3Config.bucket
  | DownloadFile bucket _ _ => String.eqb bucket S3Config.bucket
  | CopyObject bucket _ _ => String.eqb bucket S3Config.bucket
  | DeleteObject bucket _ => String.eqb bucket S3Config.bucket
  | Makedirs _ | Copyfile _ _ | Remove _ | Rmdir _ | Sleep _ _ => true
  end.

(** One guarded removal of [ImportTask.cleanup]: the file named by the
    attribute [path], then the folder named by [folder]; whatever is raised
    on the way is swallowed. *)
Definition remove_local (env : environment) (path folder : string)
  : M st unit :=
  try_except
    (let* p := self_attr path in
     os_remove env p ;;
     let* f := self_attr folder in
     os_rmdir env f)
    (fun _ => ret tt).

(** The part of [ImportTask.cleanup] after the move: the two guarded
    removals of local files, and the removal of the processed object. *)
Definition ImportTask_cleanup_local (env : environment) : M st unit :=
  remove_local env "download_path" "download_folder" ;;
  remove_local env "processed_path" "processed_folder" ;;
  let* upload_path := self_attr "upload_path" in
  s3_delete_file env S3Config.bucket upload_path.

(** The calls of [ImportTask.cleanup] once the move is done. *)
Definition is_removal (c : call) : bool :=
  match c with
  | Remove _ | Rmdir _ => true
  | DeleteObject bucket _ => String.eqb bucket S3Config.bucket
  | _ => false
  end.

(** The calls of the stages of [ImportTask.do]. *)
Definition is_stage_call (c : call) : bool :=
  match c with
  | Makedirs _ | Copyfile _ _ => true
  | UploadFile _ bucket _ => String.eqb bucket S3Config.bucket
  | DownloadFile bucket _ _ => String.eqb bucket S3Config.bucket
  | _ => false
  end.

(** What [do] and [cleanup] leave alone in every task: the class of the
    task, its message, its status message and both queues; and the [stop]
    attribute of the worker unless the task is a KillSelfTask. *)
Definition task_frame (s : st) :=
  (TaskObject.class (self s), TaskObject.task_message (self s),
   TaskObject.status_message (self s),
   Worker.task_queue (worker s), Worker.status_queue (worker s),
   match TaskObject.class (self s) with
   | KillSelfTask => true
   | _ => Worker.stop (worker s)
   end).

(** The task and the worker, without the trace. *)
Definition task_and_worker (s : st) := (self s, worker s).

(** The instance dictionary after [_parse] has split a key into [client],
    [file_type] and [version]. *)
Definition parsed (client file_type version : string)
    (d : gmap string pyval) : gmap string pyval :=
  let file_name := file_type +:+ "_" +:+ version in
  <["rejected_path" :=
      VStr (S3Config.root +:+ "/rejected/" +:+ client +:+ "/" +:+ file_name)]>
  (<["accepted_path" :=
      VStr (S3Config.root +:+ "/accepted/" +:+ client +:+ "/" +:+ file_name)]>
  (<["upload_path" :=
      VStr (S3Config.root +:+ "/processed/" +:+ client +:+ "/" +:+ file_name)]>
  (<["processed_path" :=
      VStr (AppConfig.root +:+ "/data/processed/" +:+ client +:+ "/" +:+ file_name)]>
  (<["processed_folder" :=
      VStr (AppConfig.root +:+ "/data/processed/" +:+ client)]>
  (<["download_path" :=
      VStr (AppConfig.root +:+ "/data/download/" +:+ client +:+ "/" +:+ file_name)]>
  (<["download_folder" :=
      VStr (AppConfig.root +:+ "/data/download/" +:+ client)]>
  (<["version" := VStr version]>
  (<["file_type" := VStr file_type]>
  (<["file_name" := VStr file_name]>
  (<["client" := VStr client]> d)))))))))).

(** The key of [file_type_version] in the pending folder of [client]. *)
Definition pending_key (client file_type version : string) : string :=
  S3Config.root +:+ "/pending/" +:+ client +:+ "/"
  +:+ file_type +:+ "_" +:+ version.

(** The calls of an ImportTask for [pending_key client file_type version]
    that runs to its end, with those of its [cleanup]. *)
Definition import_calls (client file_type version : string) : list call :=
  let file_name := file_type +:+ "_" +:+ version in
  let key := pending_key client file_type version in
  let download_folder := AppConfig.root +:+ "/data/download/" +:+ client in
  let download_path := download_folder +:+ "/" +:+ file_name in
  let processed_folder := AppConfig.root +:+ "/data/processed/" +:+ client in
  let processed_path := processed_folder +:+ "/" +:+ file_name in
  let upload_path :=
    S3Config.root +:+ "/processed/" +:+ client +:+ "/" +:+ file_name in
  [Makedirs download_folder;
   DownloadFile S3Config.bucket key download_path;
   Makedirs processed_folder;
   Copyfile download_path processed_path;
   UploadFile processed_path S3Config.bucket upload_path;
   CopyObject S3Config.bucket (S3Config.bucket +:+ "/" +:+ key)
     (S3Config.root +:+ "/accepted/" +:+ client +:+ "/" +:+ file_name);
   DeleteObject S3Config.bucket key;
   Remove download_path;
   Rmdir download_folder;
   Remove processed_path;
   Rmdir processed_folder;
   DeleteObject S3Config.bucket upload_path].

(** The ids on the task queue are different from each other and none is
    greater than [TaskMessage.next_id]. *)
Definition fresh_ids (s : mstate) : Prop :=
  Forall (fun m => TaskMessage.id m <= next_id s) (Main.task_queue (main s))
  /\ NoDup (map TaskMessage.id (Main.task_queue (main s))).

(** The status message a TestTask ends with and the sleeps it makes: it
    succeeds when its [wait_time] is a number that is not negative. *)
Definition test_report (task_message : TaskMessage.t) : StatusMessage.t :=
  StatusMessage.mk
    (match TaskMessage.args task_message !! "wait_time" with
     | Some (VInt z) => if z <? 0 then failure else success
     | _ => failure
     end)
    task_message.

Definition test_sleeps (task_message : TaskMessage.t) : list call :=
  match TaskMessage.args task_message !! "wait_time" with
  | Some (VInt z) => if z <? 0 then [] else [Sleep z 3; Sleep z 3; Sleep z 3]
  | _ => []
  end.

(** The state in which the ImportTask of message [id] for the key
    [file_path] starts, in a worker with empty queues. *)
Definition importing (id : Z) (file_path : string) : st :=
  mk_st
    (TaskObject.mk ImportTask (import_message id file_path)
       (StatusMessage.mk in_progress (import_message id file_path))
       (<["file_path" := VStr file_path]> ∅))
    (Worker.mk [] [] false) [].

(** A store and a file system where no call fails, whatever the listings
    say. *)
Definition faultless
    (listing : list call -> string -> string -> string -> Z ->
               outcome list_objects_response) : environment :=
  mk_environment listing (fun _ _ => None).

(** A machine whose disk refuses every operation, with a store that works
    and holds nothing. *)
Definition disk_fails : environment :=
  mk_environment (fun _ _ _ _ _ => Ok (mk_response None false))
    (fun _ c =>
       match c with
       | Makedirs _ | Copyfile _ _ | Remove _ | Rmdir _ =>
           Some (ExternalError "PermissionError")
       | _ => None
       end).

(** The state in which [cleanup] starts: [s] after the [try] and [except]
    clauses of [Worker.run]. *)
Definition at_cleanup (env : environment) (s : st) : st :=
  (try_except
     (do env ;; set_status_value success ;; put_status)
     (fun _ => set_status_value failure ;; put_status) s).2.

(** The main process after the cycle over [sample_listing] that began
    with the mark at 20. *)
Definition sample_polled : mstate :=
  mk_mstate
    (Main.mk
       [import_message 1 "pag_estuary/pending/clientA/test1_20170101.csv";
        import_message 2 "pag_estuary/pending/clientB/mmr_20170201.csv"]
       [] [check_s3_fn; check_status_fn] 50 false)
    2
    [ListObjects S3Config.bucket (S3Config.root +:+ "/pending/") "" 1000].

(** [s] after one more pass of [Main.run] in which nothing was enqueued. *)
Definition idle_pass (s : mstate) : mstate :=
  mk_mstate (Main.set_status_queue [] (main s)) (next_id s)
    (m_trace (listed s) ++ [Sleep AppConfig.sleep_time 1]).

(** A store that answers every listing with the same page and marks it as
    truncated. *)
Definition endless (page : list s3_object) : environment :=
  mk_environment (fun _ _ _ _ _ => Ok (mk_response (Some page) true))
                 (fun _ _ => None).

(** Every message on the task queue can be turned into a task. *)
Definition convertible (s : mstate) : Prop :=
  Forall (fun m => exists task, to_task m = Ok task) (Main.task_queue (main s)).

(** ** Sanity checks on concrete runs *)

Example split_path :
  split "/" (slice_from 12 "pag_estuary/pending/clientA/test1_20170101.csv")
  = ["pending"; "clientA"; "test1_20170101.csv"].
Proof. reflexivity. Qed.

Example split_empty : split "_" "" = [""].
Proof. reflexivity. Qed.

Example import_success_trace :
  p_trace (Worker_run quiet 3
             (fresh_worker [import_message 1 "pag_estuary/pending/c/mmr_2017"])).2
  = [Makedirs "C:/Altegra/Code/pa-estuary/data/download/c";
     DownloadFile S3Config.bucket "pag_estuary/pending/c/mmr_2017"
       "C:/Altegra/Code/pa-estuary/data/download/c/mmr_2017";
     Makedirs "C:/Altegra/Code/pa-estuary/data/processed/c";
     Copyfile "C:/Altegra/Code/pa-estuary/data/download/c/mmr_2017"
       "C:/Altegra/Code/pa-estuary/data/processed/c/mmr_2017";
     UploadFile "C:/Altegra/Code/pa-estuary/data/processed/c/mmr_2017"
       S3Config.bucket "pag_estuary/processed/c/mmr_2017";
     CopyObject S3Config.bucket
       (S3Config.bucket +:+ "/pag_estuary/pending/c/mmr_2017")
       "pag_estuary/accepted/c/mmr_2017";
     DeleteObject S3Config.bucket "pag_estuary/pending/c/mmr_2017";
     Remove "C:/Altegra/Code/pa-estuary/data/download/c/mmr_2017";
     Rmdir "C:/Altegra/Code/pa-estuary/data/download/c";
     Remove "C:/Altegra/Code/pa-estuary/data/processed/c/mmr_2017";
     Rmdir "C:/Altegra/Code/pa-estuary/data/processed/c";
     DeleteObject S3Config.bucket "pag_estuary/processed/c/mmr_2017"].
Proof. vm_compute. reflexivity. Qed.

(** With the store unreachable the download fails, the object is moved to
    the rejected folder (the copy is issued and fails in turn), and the
    exception of [cleanup] leaves [run]. *)
Example import_unreachable :
  Worker_run unreachable 3
    (fresh_worker [import_message 1 "pag_estuary/pending/c/mmr_2017"])
  = (Crashed (ExternalError "EndpointConnectionError"),
     mk_process
       (Worker.mk []
          [StatusMessage.mk failure
             (import_message 1 "pag_estuary/pending/c/mmr_2017")] false)
       [Makedirs "C:/Altegra/Code/pa-estuary/data/download/c";
        CopyObject S3Config.bucket
          (S3Config.bucket +:+ "/pag_estuary/pending/c/mmr_2017")
          "pag_estuary/rejected/c/mmr_2017"]).
Proof. vm_compute. reflexivity. Qed.

(** * Properties *)

(** ** The gateway *)

(** C9: [download_file] does not read its [bucket] argument.  Two calls that
    differ only in it give the same result and the same state, and the one
    request issued names [S3Config.bucket]. *)
Theorem download_file_ignores_bucket (env : environment)
    (bucket1 bucket2 remote local : string) (t : list call) :
  S3Helper.download_file env bucket1 remote local t
  = S3Helper.download_file env bucket2 remote local t
  /\ (S3Helper.download_file env bucket1 remote local t).2
     = t ++ [DownloadFile S3Config.bucket remote local].
Proof.
  split; [reflexivity|].
  unfold S3Helper.download_file, extcall; simpl.
  destruct (env_fault env t _); reflexivity.
Qed.

(** ** Dispatch *)

Lemma globals_task_class (name : string) (c : task_class) :
  globals !! name = Some (GTaskClass c) -> name ∈ task_class_names.
Proof.
  intros Hl. unfold globals in Hl.
  apply elem_of_list_to_map_2 in Hl.
  unfold task_class_names.
  repeat (apply elem_of_cons in Hl as [Hl|Hl];
          [inversion Hl; subst; set_solver|]).
  inversion Hl.
Qed.

(** A tag that names no task class makes [to_task] raise. *)
Lemma to_task_unknown (task_message : TaskMessage.t) :
  TaskMessage.type task_message ∉ task_class_names ->
  to_task task_message = Raise (KeyError (TaskMessage.type task_message))
  \/ to_task task_message = Raise TypeError.
Proof.
  intros Hn. unfold to_task.
  destruct (globals !! TaskMessage.type task_message) as [[c|]|] eqn:Hg;
    [|by right|by left].
  exfalso. eauto using globals_task_class.
Qed.

(** C1, as the code has it: for a tag that names no task class the
    conversion raises before the [try] statement is entered, so no status
    is put on the status queue, nothing else happens, and the exception
    leaves [Worker.run]: the worker claims no further task. *)
Theorem unknown_type_leaves_run (env : environment)
    (task_message : TaskMessage.t) (rest : list TaskMessage.t)
    (p : process) (fuel : nat) :
  TaskMessage.type task_message ∉ task_class_names ->
  Worker.stop (p_worker p) = false ->
  Worker.task_queue (p_worker p) = task_message :: rest ->
  exists e,
    to_task task_message = Raise e
    /\ Worker_run env (S fuel) p
       = (Crashed e,
          mk_process (Worker.mk rest (Worker.status_queue (p_worker p)) false)
            (p_trace p)).
Proof.
  intros Hn Hstop Hq.
  assert (exists e, to_task task_message = Raise e) as [e He].
  { destruct (to_task_unknown task_message Hn) as [H|H]; eauto. }
  exists e. split; [exact He|].
  simpl. unfold Worker_iteration, claim. rewrite Hstop, Hq, He.
  unfold Worker.set_task_queue. rewrite Hstop. reflexivity.
Qed.

Lemma unknown_type_leaves_run_witness :
  exists e,
    to_task (TaskMessage.mk 1 "BogusTask" ∅) = Raise e
    /\ Worker_run quiet 2
         (fresh_worker [TaskMessage.mk 1 "BogusTask" ∅; test_message 2 2])
       = (Crashed e, fresh_worker [test_message 2 2]).
Proof.
  apply (unknown_type_leaves_run quiet (TaskMessage.mk 1 "BogusTask" ∅)
           [test_message 2 2]
           (fresh_worker [TaskMessage.mk 1 "BogusTask" ∅; test_message 2 2])
           1%nat).
  - vm_compute. intros H. repeat (apply elem_of_cons in H as [H|H]; [discriminate H|]).
    inversion H.
  - reflexivity.
  - reflexivity.
Defined.

(** C1 as the specification words it fails: with an unknown tag at the head
    of the queue the run ends in a KeyError, the status queue stays empty,
    and the next message is never claimed. *)
Lemma unknown_type_no_failure_status :
  Worker_run quiet 2
    (fresh_worker [TaskMessage.mk 1 "BogusTask" ∅; test_message 2 2])
  = (Crashed (KeyError "BogusTask"), fresh_worker [test_message 2 2])
  /\ ~ (exists p',
         Worker_iteration quiet
           (fresh_worker [TaskMessage.mk 1 "BogusTask" ∅; test_message 2 2])
         = (Running, p')
         /\ StatusMessage.mk failure (TaskMessage.mk 1 "BogusTask" ∅)
            ∈ Worker.status_queue (p_worker p')).
Proof.
  split; [vm_compute; reflexivity|].
  intros (p' & Hrun & _). vm_compute in Hrun. discriminate Hrun.
Qed.

(** ** ImportTask: a key that [_parse] refuses *)

#[local] Opaque slice_from split str_in String.append.

(** [_parse] assigns [rejected_path] last: when it raises, the attribute is
    still missing, and nothing but the instance dictionary has changed. *)
Lemma parse_raise_leaves_rejected_path_unset (s s1 : st) (e : exn) :
  TaskObject.dict (self s) !! "rejected_path" = None ->
  _parse s = (Raise e, s1) ->
  TaskObject.dict (self s1) !! "rejected_path" = None
  /\ TaskObject.dict (self s1) !! "file_path"
     = TaskObject.dict (self s) !! "file_path"
  /\ TaskObject.class (self s1) = TaskObject.class (self s)
  /\ TaskObject.status_message (self s1) = TaskObject.status_message (self s)
  /\ worker s1 = worker s
  /\ trace s1 = trace s.
Proof.
  intros Hnone Hp.
  unfold _parse, bind, self_str, self_attr, getattr, as_str, assert_, index,
    self_setattr, modify, ret, raise, bind in Hp.
  repeat (case_match; simplify_eq; simpl in * );
    rewrite ?lookup_insert_ne by done; repeat split; auto.
Qed.

#[local] Transparent slice_from split str_in String.append.

(** Whatever makes [_parse] raise, the worker publishes the failure and then
    [cleanup] stops at [self.rejected_path]: no call is issued, no move in
    particular, and the AttributeError leaves the [finally] clause. *)
Lemma parse_raise_no_move (env : environment) (s s1 : st) (e : exn)
    (file_path : pyval) :
  TaskObject.class (self s) = ImportTask ->
  TaskObject.dict (self s) !! "file_path" = Some file_path ->
  TaskObject.dict (self s) !! "rejected_path" = None ->
  _parse s = (Raise e, s1) ->
  exists s2,
    do_task env s = (Raise (AttributeError "rejected_path"), s2)
    /\ trace s2 = trace s
    /\ Worker.status_queue (worker s2)
       = Worker.status_queue (worker s)
         ++ [StatusMessage.mk failure
               (StatusMessage.task_message (TaskObject.status_message (self s)))]
    /\ Worker.task_queue (worker s2) = Worker.task_queue (worker s)
    /\ Worker.stop (worker s2) = Worker.stop (worker s).
Proof.
  intros Hc Hf Hr Hp.
  destruct (parse_raise_leaves_rejected_path_unset s s1 e Hr Hp)
    as (Hr1 & Hf1 & Hc1 & Hm1 & Hw1 & Ht1).
  rewrite Hf in Hf1.
  unfold do_task, try_finally, try_except.
  unfold bind at 1. unfold do at 1. rewrite Hc. unfold ImportTask_do.
  unfold bind at 1. rewrite Hp.
  unfold set_status_value, put_status, bind, modify; simpl.
  unfold cleanup; simpl. rewrite Hc1, Hc.
  unfold ImportTask_cleanup, bind, gets, self_attr, getattr; simpl.
  rewrite Hf1; simpl. rewrite Hr1; simpl.
  eexists; split; [reflexivity|]. simpl.
  rewrite Ht1, Hm1, Hw1. auto.
Qed.

(** C2, at a key the specification wants rejected: the file type [bad] is
    not in the allow-list.  The failure status is published, but [cleanup]
    raises AttributeError before any call is issued: the object is not
    moved to the rejected folder, and the exception ends [Worker.run] with
    the next message unclaimed. *)
Theorem bad_file_type_is_not_moved (env : environment) :
  Worker_run env 2
    (fresh_worker
       [import_message 1 "pag_estuary/pending/clientA/bad_20170101.csv";
        test_message 2 2])
  = (Crashed (AttributeError "rejected_path"),
     mk_process
       (Worker.mk [test_message 2 2]
          [StatusMessage.mk failure
             (import_message 1 "pag_estuary/pending/clientA/bad_20170101.csv")]
          false)
       []).
Proof. vm_compute. reflexivity. Qed.

(** C3, at a key with no client folder: [cleanup] is entered once, from the
    [finally] clause, but it issues neither the accepted nor the rejected
    move, where the specification wants exactly one of them. *)
Theorem malformed_key_issues_no_move (env : environment) :
  let task_message := import_message 1 "pag_estuary/pending/test1_20170101.csv" in
  let after := claim env task_message (fresh_worker []) in
  after.1 = Raise (AttributeError "rejected_path")
  /\ length (filter (fun c => is_copy c = true) (p_trace after.2)) = 0%nat
  /\ Worker.status_queue (p_worker after.2)
     = [StatusMessage.mk failure task_message].
Proof. vm_compute. auto. Qed.

(** C4, at a file name without an underscore: after the parse stage has
    failed, [cleanup] does not complete; it raises AttributeError at
    [self.rejected_path]. *)
Theorem cleanup_raises_after_failed_parse (env : environment) :
  exists s,
    before_cleanup env
      (import_message 1 "pag_estuary/pending/clientA/mmr20170101.csv") = Some s
    /\ StatusMessage.value (TaskObject.status_message (self s)) = failure
    /\ (cleanup env s).1 = Raise (AttributeError "rejected_path").
Proof. eexists. split; [vm_compute; reflexivity|]. vm_compute. auto. Qed.

(** ** TestTask and KillSelfTask *)

Lemma TestTask_sleep_spec (s : st) :
  exists r sleeps,
    TestTask_sleep s = (r, mk_st (self s) (worker s) (trace s ++ sleeps))
    /\ Forall (fun c => is_sleep c = true) sleeps.
Proof.
  unfold TestTask_sleep, bind, self_attr, getattr, time_sleep, raise.
  destruct s as [o w t]; simpl.
  destruct (TaskObject.dict o !! "wait_time") as [[x|z]|].
  - exists (Raise TypeError), []. rewrite app_nil_r. auto.
  - destruct (z <? 0).
    + exists (Raise ValueError), []. rewrite app_nil_r. auto.
    + exists (Ok tt), [Sleep z 3]. auto.
  - exists (Raise (AttributeError "wait_time")), []. rewrite app_nil_r. auto.
Qed.

Lemma TestTask_do_spec (s : st) :
  exists r sleeps,
    TestTask_do s = (r, mk_st (self s) (worker s) (trace s ++ sleeps))
    /\ Forall (fun c => is_sleep c = true) sleeps.
Proof.
  unfold TestTask_do, bind.
  destruct (TestTask_sleep_spec s) as (r1 & l1 & -> & H1).
  destruct r1 as [[]|e]; [|eauto].
  destruct (TestTask_sleep_spec (mk_st (self s) (worker s) (trace s ++ l1)))
    as (r2 & l2 & -> & H2); simpl.
  rewrite <- app_assoc.
  destruct r2 as [[]|e]; [|exists (Raise e), (l1 ++ l2); auto using Forall_app_2].
  destruct (TestTask_sleep_spec
              (mk_st (self s) (worker s) (trace s ++ l1 ++ l2)))
    as (r3 & l3 & -> & H3); simpl.
  rewrite <- !app_assoc.
  exists r3, (l1 ++ l2 ++ l3). auto using Forall_app_2.
Qed.

(** C10: for a TestTask and for a KillSelfTask [cleanup] returns at once
    and leaves the state as it is, and the whole guarded execution of such
    a task issues no call to the store or the file system: the only calls
    it adds to the trace are the sleeps of TestTask. *)
Theorem test_and_kill_tasks_leave_store_alone (env : environment) (s : st) :
  TaskObject.class (self s) = TestTask
  \/ TaskObject.class (self s) = KillSelfTask ->
  cleanup env s = (Ok tt, s)
  /\ exists r s' sleeps,
       do_task env s = (r, s')
       /\ trace s' = trace s ++ sleeps
       /\ Forall (fun c => is_sleep c = true) sleeps.
Proof.
  intros Hc. split.
  - unfold cleanup. destruct Hc as [-> | ->]; reflexivity.
  - unfold do_task, try_finally, try_except, bind, do, cleanup.
    destruct Hc as [Hc | Hc]; rewrite Hc.
    + destruct (TestTask_do_spec s) as (r & l & -> & Hl).
      destruct r as [[]|e]; simpl; rewrite Hc; simpl;
        eexists _, _, l; eauto.
    + simpl. rewrite Hc. simpl.
      eexists _, _, []. rewrite app_nil_r. eauto.
Qed.

Lemma test_and_kill_tasks_leave_store_alone_witness :
  cleanup quiet (mk_st (Task_init KillSelfTask (kill_message 1))
                   (Worker.mk [] [] false) [])
  = (Ok tt, mk_st (Task_init KillSelfTask (kill_message 1))
              (Worker.mk [] [] false) [])
  /\ exists r s' sleeps,
       do_task quiet (mk_st (Task_init KillSelfTask (kill_message 1))
                        (Worker.mk [] [] false) []) = (r, s')
       /\ trace s' = [] ++ sleeps
       /\ Forall (fun c => is_sleep c = true) sleeps.
Proof.
  apply (test_and_kill_tasks_leave_store_alone quiet
           (mk_st (Task_init KillSelfTask (kill_message 1))
              (Worker.mk [] [] false) [])).
  right. reflexivity.
Defined.

(** A TestTask run to its end: three sleeps and nothing else. *)
Example test_task_trace :
  Worker_run quiet 2 (fresh_worker [test_message 1 2])
  = (Waiting,
     mk_process
       (Worker.mk [] [StatusMessage.mk success (test_message 1 2)] false)
       [Sleep 2 3; Sleep 2 3; Sleep 2 3]).
Proof. vm_compute. reflexivity. Qed.

Lemma globals_KillSelfTask :
  globals !! "KillSelfTask" = Some (GTaskClass KillSelfTask).
Proof. vm_compute. reflexivity. Qed.

(** What claiming a KillSelfTask message does to the worker process. *)
Lemma claim_KillSelfTask (env : environment) (task_message : TaskMessage.t)
    (p : process) :
  TaskMessage.type task_message = "KillSelfTask" ->
  claim env task_message p
  = (Ok tt,
     mk_process
       (Worker.mk (Worker.task_queue (p_worker p))
          (Worker.status_queue (p_worker p)
           ++ [StatusMessage.mk success task_message])
          true)
       (p_trace p)).
Proof.
  intros Ht. unfold claim, to_task. rewrite Ht, globals_KillSelfTask.
  reflexivity.
Qed.

(** One pass of a running worker whose queue starts with a KillSelfTask. *)
Lemma Worker_iteration_KillSelfTask (env : environment)
    (task_message : TaskMessage.t) (rest : list TaskMessage.t)
    (status_queue : list StatusMessage.t) (t : list call) :
  TaskMessage.type task_message = "KillSelfTask" ->
  Worker_iteration env
    (mk_process (Worker.mk (task_message :: rest) status_queue false) t)
  = (Running,
     mk_process
       (Worker.mk rest
          (status_queue ++ [StatusMessage.mk success task_message]) true)
       t).
Proof.
  intros Ht. unfold Worker_iteration.
  cbn [p_worker Worker.stop Worker.task_queue p_trace Worker.set_task_queue
       Worker.status_queue].
  rewrite (claim_KillSelfTask env task_message _ Ht).
  reflexivity.
Qed.

(** C8: when worker [i] claims and executes a KillSelfTask, its own [stop]
    attribute becomes true and it leaves its loop at the next test; the
    [stop] attributes of the other workers and of the coordinator are
    unchanged, and so is the task queue apart from the message that was
    claimed: executing the task neither adds nor removes a message. *)
Theorem kill_self_stops_only_its_worker (env : environment) (i : nat)
    (sys : system) (task_message : TaskMessage.t)
    (rest : list TaskMessage.t) :
  sys_worker_stop sys !! i = Some false ->
  sys_task_queue sys = task_message :: rest ->
  TaskMessage.type task_message = "KillSelfTask" ->
  exists sys',
    system_worker_iteration env i sys = Some (Running, sys')
    /\ sys_worker_stop sys' !! i = Some true
    /\ (forall j, j <> i ->
          sys_worker_stop sys' !! j = sys_worker_stop sys !! j)
    /\ length (sys_worker_stop sys') = length (sys_worker_stop sys)
    /\ sys_main_stop sys' = sys_main_stop sys
    /\ sys_task_queue sys' = rest
    /\ (forall p,
          Worker.task_queue (p_worker (claim env task_message p).2)
          = Worker.task_queue (p_worker p))
    /\ sys_trace sys' = sys_trace sys
    /\ system_worker_iteration env i sys' = Some (Stopped, sys').
Proof.
  intros Hi Hq Ht.
  assert (i < length (sys_worker_stop sys))%nat as Hlt
    by (eapply lookup_lt_Some; eauto).
  destruct sys as [main_stop stops tq sq t].
  cbn [sys_worker_stop sys_task_queue sys_main_stop sys_trace] in *.
  subst tq.
  unfold system_worker_iteration at 1.
  cbn [sys_worker_stop sys_task_queue sys_status_queue sys_main_stop sys_trace].
  rewrite Hi, (Worker_iteration_KillSelfTask env _ _ _ _ Ht).
  cbn [p_worker Worker.stop Worker.task_queue p_trace Worker.status_queue].
  eexists. split; [reflexivity|].
  cbn [sys_worker_stop sys_task_queue sys_status_queue sys_main_stop sys_trace].
  split; [by apply list_lookup_insert_eq|].
  split; [intros j Hj; by apply list_lookup_insert_ne|].
  split; [apply length_insert|].
  split; [reflexivity|]. split; [reflexivity|].
  split; [intros p; by rewrite (claim_KillSelfTask env task_message p Ht)|].
  split; [reflexivity|].
  unfold system_worker_iteration.
  cbn [sys_worker_stop sys_task_queue sys_status_queue sys_main_stop sys_trace].
  rewrite list_lookup_insert_eq by done.
  unfold Worker_iteration.
  cbn [p_worker Worker.stop Worker.task_queue p_trace Worker.status_queue].
  by rewrite list_insert_insert_eq.
Qed.

Lemma kill_self_stops_only_its_worker_witness :
  exists sys',
    system_worker_iteration quiet 1
      (mk_system false [false; false; false]
         [kill_message 1; test_message 2 2] [] [])
    = Some (Running, sys')
    /\ sys_worker_stop sys' !! 1%nat = Some true
    /\ (forall j, j <> 1%nat ->
          sys_worker_stop sys' !! j = [false; false; false] !! j)
    /\ length (sys_worker_stop sys') = 3%nat
    /\ sys_main_stop sys' = false
    /\ sys_task_queue sys' = [test_message 2 2]
    /\ (forall p,
          Worker.task_queue (p_worker (claim quiet (kill_message 1) p).2)
          = Worker.task_queue (p_worker p))
    /\ sys_trace sys' = []
    /\ system_worker_iteration quiet 1 sys' = Some (Stopped, sys').
Proof.
  apply (kill_self_stops_only_its_worker quiet 1
           (mk_system false [false; false; false]
              [kill_message 1; test_message 2 2] [] [])
           (kill_message 1) [test_message 2 2]).
  - reflexivity.
  - reflexivity.
  - reflexivity.
Defined.

(** ** The poll cycle *)

(** [list_files] touches nothing of the main process but the trace. *)
Lemma list_files_loop_frame (env : environment) (fuel : nat) :
  forall (bucket prefix marker : string) (acc : list s3_object) (k : Z)
         (s s1 : mstate) (r : outcome (list s3_object)),
    S3Helper.list_files_loop env fuel bucket prefix marker acc k s
    = Some (r, s1) ->
    main s1 = main s /\ next_id s1 = next_id s.
Proof.
  induction fuel as [|fuel IH]; intros bucket prefix marker acc k s s1 r Hl;
    [discriminate Hl|].
  simpl in Hl. unfold client_list_objects in Hl. simpl in Hl.
  destruct (env_list_objects env (m_trace s) bucket prefix marker 1000)
    as [response|e]; [|by simplify_eq].
  destruct (Contents response) as [objects|]; [|by simplify_eq].
  destruct (IsTruncated response); [|by simplify_eq].
  destruct (last objects) as [o|]; [|by simplify_eq].
  apply IH in Hl. exact Hl.
Qed.

Lemma newest_ge (objs : list s3_object) :
  forall new_s3_time, new_s3_time <= newest new_s3_time objs.
Proof.
  induction objs as [|o rest IH]; intros new; simpl; [lia|].
  specialize (IH (if LastModified o >? new then LastModified o else new)).
  destruct (Z.gtb_spec (LastModified o) new); lia.
Qed.

Lemma newest_bounds (objs : list s3_object) :
  forall new_s3_time,
    Forall (fun o => LastModified o <= newest new_s3_time objs) objs.
Proof.
  induction objs as [|o rest IH]; intros new; simpl; constructor.
  - pose proof (newest_ge rest
                  (if LastModified o >? new then LastModified o else new)).
    destruct (Z.gtb_spec (LastModified o) new); lia.
  - apply IH.
Qed.

Lemma newest_attained (objs : list s3_object) :
  forall new_s3_time,
    newest new_s3_time objs = new_s3_time
    \/ newest new_s3_time objs ∈ map LastModified objs.
Proof.
  induction objs as [|o rest IH]; intros new; simpl; [by left|].
  destruct (IH (if LastModified o >? new then LastModified o else new))
    as [H|H].
  - rewrite H. destruct (Z.gtb_spec (LastModified o) new);
      [right; apply elem_of_cons; by left|by left].
  - right. apply elem_of_cons. by right.
Qed.

(** The loop of [check_s3]: one message for each object that is not
    skipped, every object compared with the mark held in [self]. *)
Lemma check_s3_loop_spec (results : list s3_object) :
  forall (new_s3_time : Z) (m : Main.t) (id : Z) (t : list call),
    check_s3_loop results new_s3_time (mk_mstate m id t)
    = (Ok (newest new_s3_time (produced (Main.max_s3_time m) results)),
       mk_mstate
         (Main.set_task_queue
            (Main.task_queue m
             ++ import_messages id (produced (Main.max_s3_time m) results))
            m)
         (id + Z.of_nat (length (produced (Main.max_s3_time m) results)))
         t).
Proof.
  induction results as [|o rest IH]; intros new m id t.
  - destruct m. simpl. unfold ret, Main.set_task_queue. simpl.
    rewrite app_nil_r, Z.add_0_r. reflexivity.
  - destruct m as [tq sq lf mark stop].
    simpl check_s3_loop. unfold produced.
    cbn [Main.max_s3_time Main.task_queue].
    destruct (Z.eqb_spec (Size o) 0) as [Hz|Hz].
    { rewrite filter_cons_False by tauto. apply (IH new (Main.mk tq sq lf mark stop)). }
    unfold bind at 1. unfold gets at 1.
    cbn [main Main.max_s3_time].
    destruct (Z.leb_spec (LastModified o) mark) as [Hl|Hl].
    { rewrite filter_cons_False by lia. apply (IH new (Main.mk tq sq lf mark stop)). }
    rewrite filter_cons_True by (split; [done|lia]).
    unfold bind, TaskMessage_init, task_queue_put, modify, gets, ret, bind,
      set_main, Main.set_task_queue.
    cbn [main next_id m_trace Main.task_queue Main.status_queue
         Main.looped_functions Main.max_s3_time Main.stop].
    rewrite IH. unfold Main.set_task_queue, produced.
    cbn [Main.task_queue Main.status_queue Main.looped_functions
         Main.max_s3_time Main.stop import_messages newest length].
    rewrite <- app_assoc. simpl app.
    do 2 f_equal. lia.
Qed.

Lemma list_files_frame (env : environment) (fuel : nat)
    (bucket prefix : string) (s s1 : mstate)
    (r : outcome (list s3_object)) :
  S3Helper.list_files env fuel bucket prefix s = Some (r, s1) ->
  main s1 = main s /\ next_id s1 = next_id s.
Proof. apply list_files_loop_frame. Qed.

(** [check_s3] when the listing succeeds. *)
Lemma check_s3_ok (env : environment) (fuel : nat) (s s1 : mstate)
    (results : list s3_object) :
  S3Helper.list_files env fuel S3Config.bucket (S3Config.root +:+ "/pending/") s
  = Some (Ok results, s1) ->
  let objs := produced (Main.max_s3_time (main s)) results in
  check_s3 env fuel s
  = Some (Ok tt,
          mk_mstate
            (Main.set_max_s3_time
               (newest (Main.max_s3_time (main s)) objs)
               (Main.set_task_queue
                  (Main.task_queue (main s) ++ import_messages (next_id s) objs)
                  (main s)))
            (next_id s + Z.of_nat (length objs))
            (m_trace s1)).
Proof.
  intros Hl objs. unfold check_s3. rewrite Hl.
  destruct (list_files_frame _ _ _ _ _ _ _ Hl) as [Hm Hn].
  destruct s1 as [m1 id1 t1]. simpl in Hm, Hn. subst m1 id1.
  unfold check_s3_scan, bind, gets, modify. cbn [main].
  rewrite check_s3_loop_spec. reflexivity.
Qed.

(** [check_s3] when the listing raises: nothing but the trace changes. *)
Lemma check_s3_raise (env : environment) (fuel : nat) (s s1 : mstate)
    (e : exn) :
  S3Helper.list_files env fuel S3Config.bucket (S3Config.root +:+ "/pending/") s
  = Some (Raise e, s1) ->
  check_s3 env fuel s = Some (Raise e, s1)
  /\ main s1 = main s /\ next_id s1 = next_id s.
Proof.
  intros Hl. unfold check_s3. rewrite Hl. split; [reflexivity|].
  eapply list_files_frame; eauto.
Qed.

Lemma check_s3_mono (env : environment) (fuel : nat) (s s' : mstate)
    (r : outcome unit) :
  check_s3 env fuel s = Some (r, s') ->
  Main.max_s3_time (main s) <= Main.max_s3_time (main s').
Proof.
  intros Hc.
  destruct (S3Helper.list_files env fuel S3Config.bucket
              (S3Config.root +:+ "/pending/") s) as [[[results|e] s1]|] eqn:Hl.
  - rewrite (check_s3_ok _ _ _ _ _ Hl) in Hc. simplify_eq. simpl.
    destruct (main s); simpl. apply newest_ge.
  - destruct (check_s3_raise _ _ _ _ _ Hl) as (Hc' & Hm & _).
    rewrite Hc' in Hc. simplify_eq. rewrite Hm. lia.
  - unfold check_s3 in Hc. rewrite Hl in Hc. discriminate Hc.
Qed.

Lemma call_all_mono (env : environment) (fuel : nat)
    (fs : list looped_function) :
  forall s s',
    call_all env fuel fs s = Some s' ->
    Main.max_s3_time (main s) <= Main.max_s3_time (main s').
Proof.
  induction fs as [|f fs IH]; intros s s' Hc; simpl in Hc.
  - simplify_eq. lia.
  - destruct (call_looped env fuel f s) as [[r s1]|] eqn:Hf; [|discriminate Hc].
    apply IH in Hc.
    assert (Main.max_s3_time (main s) <= Main.max_s3_time (main s1)); [|lia].
    destruct f; simpl in Hf.
    + eapply check_s3_mono; eauto.
    + unfold check_status, modify in Hf. simplify_eq.
      destruct s as [[]]; simpl. lia.
Qed.

Lemma Main_iteration_mono (env : environment) (fuel : nat) (s s' : mstate)
    (r : run_end) :
  Main_iteration env fuel s = Some (r, s') ->
  Main.max_s3_time (main s) <= Main.max_s3_time (main s').
Proof.
  unfold Main_iteration. intros Hi.
  destruct (Main.stop (main s)); [simplify_eq; lia|].
  destruct (call_all env fuel (Main.looped_functions (main s)) s)
    as [s1|] eqn:Hc; [|discriminate Hi].
  apply call_all_mono in Hc.
  unfold time_sleep in Hi. simpl in Hi. simplify_eq. simpl. exact Hc.
Qed.

(** However many passes [Main.run] makes, whether polls succeed or fail,
    the high-water mark never decreases. *)
Lemma Main_run_mono (env : environment) (fuel : nat) (n : nat) :
  forall s s' r,
    Main_run env n fuel s = Some (r, s') ->
    Main.max_s3_time (main s) <= Main.max_s3_time (main s').
Proof.
  induction n as [|n IH]; intros s s' r Hr; simpl in Hr.
  - simplify_eq. lia.
  - destruct (Main_iteration env fuel s) as [[r1 s1]|] eqn:Hi;
      [|discriminate Hr].
    apply Main_iteration_mono in Hi.
    destruct r1; simplify_eq; try lia.
    apply IH in Hr. lia.
Qed.

Lemma produced_newer (mark : Z) (results : list s3_object) (o : s3_object) :
  o ∈ produced mark results -> mark < LastModified o.
Proof. unfold produced. rewrite list_elem_of_filter. tauto. Qed.

(** C5: after every cycle whose listing ended, with a result or with an
    exception, the high-water mark is unchanged when no object produced a
    message, and otherwise it is the greatest [LastModified] among the
    objects that produced one: it is the [LastModified] of one of them and
    none of them is newer.  So it never decreases, in this cycle or in any
    later pass of [Main.run]. *)
Theorem high_water_mark_after_cycle (env : environment) (fuel : nat)
    (s s1 : mstate) (listing : outcome (list s3_object)) :
  S3Helper.list_files env fuel S3Config.bucket (S3Config.root +:+ "/pending/") s
  = Some (listing, s1) ->
  exists r s',
    check_s3 env fuel s = Some (r, s')
    /\ Main.task_queue (main s')
       = Main.task_queue (main s)
         ++ import_messages (next_id s)
              (produced_in_cycle (Main.max_s3_time (main s)) listing)
    /\ (produced_in_cycle (Main.max_s3_time (main s)) listing = [] ->
        Main.max_s3_time (main s') = Main.max_s3_time (main s))
    /\ (produced_in_cycle (Main.max_s3_time (main s)) listing <> [] ->
        Main.max_s3_time (main s')
        ∈ map LastModified
            (produced_in_cycle (Main.max_s3_time (main s)) listing)
        /\ Forall (fun o => LastModified o <= Main.max_s3_time (main s'))
             (produced_in_cycle (Main.max_s3_time (main s)) listing))
    /\ Main.max_s3_time (main s) <= Main.max_s3_time (main s')
    /\ (forall n fuel' r' s'',
          Main_run env n fuel' s' = Some (r', s'') ->
          Main.max_s3_time (main s') <= Main.max_s3_time (main s'')).
Proof.
  intros Hl. destruct listing as [results|e]; cbn [produced_in_cycle].
  - pose proof (check_s3_ok env fuel s s1 results Hl) as Hc.
    simpl in Hc. eexists _, _. split; [exact Hc|].
    set (mark := Main.max_s3_time (main s)).
    set (objs := produced mark results).
    assert (Main.max_s3_time
              (Main.set_max_s3_time (newest mark objs)
                 (Main.set_task_queue
                    (Main.task_queue (main s)
                     ++ import_messages (next_id s) objs) (main s)))
            = newest mark objs) as Hmark by (destruct (main s); reflexivity).
    cbn [main]. rewrite Hmark.
    split; [by destruct (main s)|].
    split; [intros ->; reflexivity|].
    split.
    + intros Hne. split; [|apply newest_bounds].
      destruct (newest_attained objs mark) as [Heq|Hin]; [|exact Hin].
      destruct objs as [|o rest] eqn:Ho; [done|].
      assert (mark < LastModified o) as Hlt.
      { apply (produced_newer mark results). fold objs. rewrite Ho.
        apply elem_of_cons. by left. }
      pose proof (newest_bounds (o :: rest) mark) as Hb.
      apply Forall_cons in Hb as [Hb _]. lia.
    + split; [apply newest_ge|].
      intros n fuel' r' s'' Hr. apply Main_run_mono in Hr.
      cbn [main] in Hr. rewrite Hmark in Hr. exact Hr.
  - destruct (check_s3_raise env fuel s s1 e Hl) as (Hc & Hm & Hn).
    eexists _, _. split; [exact Hc|]. rewrite Hm. simpl.
    rewrite app_nil_r. repeat split; try done.
    intros n fuel' r' s'' Hr. apply Main_run_mono in Hr.
    by rewrite Hm in Hr.
Qed.

Lemma high_water_mark_after_cycle_witness :
  exists r s',
    check_s3 (one_page sample_listing) 1 (polling 20) = Some (r, s')
    /\ Main.task_queue (main s')
       = Main.task_queue (main (polling 20))
         ++ import_messages (next_id (polling 20))
              (produced_in_cycle (Main.max_s3_time (main (polling 20)))
                 (Ok sample_listing))
    /\ (produced_in_cycle (Main.max_s3_time (main (polling 20)))
          (Ok sample_listing) = [] ->
        Main.max_s3_time (main s') = Main.max_s3_time (main (polling 20)))
    /\ (produced_in_cycle (Main.max_s3_time (main (polling 20)))
          (Ok sample_listing) <> [] ->
        Main.max_s3_time (main s')
        ∈ map LastModified
            (produced_in_cycle (Main.max_s3_time (main (polling 20)))
               (Ok sample_listing))
        /\ Forall (fun o => LastModified o <= Main.max_s3_time (main s'))
             (produced_in_cycle (Main.max_s3_time (main (polling 20)))
                (Ok sample_listing)))
    /\ Main.max_s3_time (main (polling 20)) <= Main.max_s3_time (main s')
    /\ (forall n fuel' r' s'',
          Main_run (one_page sample_listing) n fuel' s' = Some (r', s'') ->
          Main.max_s3_time (main s') <= Main.max_s3_time (main s'')).
Proof.
  apply (high_water_mark_after_cycle (one_page sample_listing) 1
           (polling 20) (listed (polling 20)) (Ok sample_listing)).
  vm_compute. reflexivity.
Defined.

(** The cycle of the witness, computed: both new files are enqueued, the
    second although it is older than the first, and the mark becomes 50. *)
Example sample_cycle :
  check_s3 (one_page sample_listing) 1 (polling 20)
  = Some (Ok tt,
          mk_mstate
            (Main.mk
               [import_message 1 "pag_estuary/pending/clientA/test1_20170101.csv";
                import_message 2 "pag_estuary/pending/clientB/mmr_20170201.csv"]
               [] [check_s3_fn; check_status_fn] 50 false)
            2
            [ListObjects S3Config.bucket "pag_estuary/pending/" "" 1000]).
Proof. vm_compute. reflexivity. Qed.

(** The next cycle over the same listing enqueues nothing. *)
Example sample_cycle_again :
  check_s3 (one_page sample_listing) 1 (polling 50)
  = Some (Ok tt, listed (polling 50)).
Proof. vm_compute. reflexivity. Qed.

Lemma import_messages_shape (objs : list s3_object) :
  forall id,
    Forall2 (fun o m =>
               TaskMessage.type m = "ImportTask"
               /\ TaskMessage.args m = {["file_path" := VStr (Key o)]})
      objs (import_messages id objs).
Proof. induction objs; intros id; simpl; constructor; auto. Qed.

Lemma import_messages_ids (objs : list s3_object) :
  forall id,
    Forall (fun m => id < TaskMessage.id m) (import_messages id objs)
    /\ NoDup (map TaskMessage.id (import_messages id objs)).
Proof.
  induction objs as [|o rest IH]; intros id; simpl.
  - split; constructor.
  - destruct (IH (id + 1)) as [Hlt Hnd]. split.
    + constructor; [simpl; lia|].
      eapply Forall_impl; [exact Hlt|]. simpl. intros; lia.
    + constructor; [|exact Hnd].
      rewrite list_elem_of_fmap. intros (m & Hid & Hin).
      rewrite Forall_forall in Hlt. apply Hlt in Hin. lia.
Qed.

(** With sizes that are not negative, the objects that are not skipped are
    those of positive size modified after the mark. *)
Lemma produced_positive_size (mark : Z) (results : list s3_object) :
  Forall (fun o => 0 <= Size o) results ->
  filter (fun o => 0 < Size o /\ mark < LastModified o) results
  = produced mark results.
Proof.
  unfold produced. induction 1 as [|o rest Hs _ IH]; [reflexivity|].
  destruct (decide (Size o <> 0 /\ mark < LastModified o)) as [Hp|Hp].
  - rewrite !filter_cons_True by (try done; lia). by rewrite IH.
  - rewrite !filter_cons_False by (try done; lia). exact IH.
Qed.

(** C6: a cycle whose listing succeeded appends to the task queue exactly
    one ImportTask message, carrying the key as [file_path], for each listed
    object of positive size whose [LastModified] is greater than the mark
    held before the cycle, in the order of the listing, and nothing else;
    the messages have different ids. *)
Theorem one_message_per_new_object (env : environment) (fuel : nat)
    (s s1 : mstate) (results : list s3_object) :
  S3Helper.list_files env fuel S3Config.bucket (S3Config.root +:+ "/pending/") s
  = Some (Ok results, s1) ->
  Forall (fun o => 0 <= Size o) results ->
  exists s' new_messages,
    check_s3 env fuel s = Some (Ok tt, s')
    /\ Main.task_queue (main s') = Main.task_queue (main s) ++ new_messages
    /\ Forall2 (fun o m =>
                  TaskMessage.type m = "ImportTask"
                  /\ TaskMessage.args m = {["file_path" := VStr (Key o)]})
         (filter (fun o => 0 < Size o
                           /\ Main.max_s3_time (main s) < LastModified o)
            results)
         new_messages
    /\ NoDup (map TaskMessage.id new_messages).
Proof.
  intros Hl Hs. pose proof (check_s3_ok env fuel s s1 results Hl) as Hc.
  simpl in Hc.
  eexists _, (import_messages (next_id s)
                (produced (Main.max_s3_time (main s)) results)).
  split; [exact Hc|].
  split; [by destruct (main s)|].
  split.
  - rewrite (produced_positive_size _ _ Hs). apply import_messages_shape.
  - apply import_messages_ids.
Qed.

Lemma one_message_per_new_object_witness :
  exists s' new_messages,
    check_s3 (one_page sample_listing) 1 (polling 20) = Some (Ok tt, s')
    /\ Main.task_queue (main s')
       = Main.task_queue (main (polling 20)) ++ new_messages
    /\ Forall2 (fun o m =>
                  TaskMessage.type m = "ImportTask"
                  /\ TaskMessage.args m = {["file_path" := VStr (Key o)]})
         (filter (fun o => 0 < Size o
                           /\ Main.max_s3_time (main (polling 20))
                              < LastModified o)
            sample_listing)
         new_messages
    /\ NoDup (map TaskMessage.id new_messages).
Proof.
  apply (one_message_per_new_object (one_page sample_listing) 1
           (polling 20) (listed (polling 20)) sample_listing).
  - vm_compute. reflexivity.
  - repeat constructor; vm_compute; discriminate.
Defined.

Lemma drain_nil (q : list StatusMessage.t) : drain q = [].
Proof. induction q; simpl; auto. Qed.

(** C7: when the listing raises, [check_s3] raises before it reads or
    writes anything of the main process: the mark, the task queue and the
    id counter are as before.  The pass of [Main.run] catches the
    exception, goes on to [check_status], sleeps, and the loop goes on with
    the next pass. *)
Theorem listing_failure_is_caught (env : environment) (fuel : nat)
    (s s1 : mstate) (e : exn) :
  S3Helper.list_files env fuel S3Config.bucket (S3Config.root +:+ "/pending/") s
  = Some (Raise e, s1) ->
  Main.stop (main s) = false ->
  Main.looped_functions (main s) = [check_s3_fn; check_status_fn] ->
  check_s3 env fuel s = Some (Raise e, s1)
  /\ main s1 = main s
  /\ next_id s1 = next_id s
  /\ exists s2,
       Main_iteration env fuel s = Some (Running, s2)
       /\ Main.max_s3_time (main s2) = Main.max_s3_time (main s)
       /\ Main.task_queue (main s2) = Main.task_queue (main s)
       /\ Main.status_queue (main s2) = []
       /\ Main.stop (main s2) = false
       /\ forall n, Main_run env (S n) fuel s = Main_run env n fuel s2.
Proof.
  intros Hl Hstop Hfs.
  destruct (check_s3_raise env fuel s s1 e Hl) as (Hc & Hm & Hn).
  split; [exact Hc|]. split; [exact Hm|]. split; [exact Hn|].
  assert (Main_iteration env fuel s
          = Some (Running,
                  mk_mstate
                    (Main.set_status_queue [] (main s)) (next_id s)
                    (m_trace s1 ++ [Sleep AppConfig.sleep_time 1]))) as Hi.
  { unfold Main_iteration. rewrite Hstop, Hfs.
    cbn [call_all call_looped]. rewrite Hc.
    unfold check_status, modify, set_main, time_sleep.
    cbn [main next_id m_trace get_trace set_trace mstate_HasTrace].
    rewrite drain_nil, Hm, Hn. reflexivity. }
  eexists. split; [exact Hi|].
  cbn [main]. destruct (main s); simpl in *.
  repeat split; auto.
  intros n. cbn [Main_run]. rewrite Hi. reflexivity.
Qed.

Lemma listing_failure_is_caught_witness :
  check_s3 listing_fails 1 (polling 20)
  = Some (Raise (ExternalError "AccessDenied"), listed (polling 20))
  /\ main (listed (polling 20)) = main (polling 20)
  /\ next_id (listed (polling 20)) = next_id (polling 20)
  /\ exists s2,
       Main_iteration listing_fails 1 (polling 20) = Some (Running, s2)
       /\ Main.max_s3_time (main s2) = Main.max_s3_time (main (polling 20))
       /\ Main.task_queue (main s2) = Main.task_queue (main (polling 20))
       /\ Main.status_queue (main s2) = []
       /\ Main.stop (main s2) = false
       /\ forall n,
            Main_run listing_fails (S n) 1 (polling 20)
            = Main_run listing_fails n 1 s2.
Proof.
  apply (listing_failure_is_caught listing_fails 1 (polling 20)
           (listed (polling 20)) (ExternalError "AccessDenied")).
  - vm_compute. reflexivity.
  - reflexivity.
  - reflexivity.
Defined.

(** Three passes over a store whose listing always fails: the loop is
    still running, nothing was enqueued and the mark has not moved. *)
Example failing_polls :
  Main_run listing_fails 3 1 (polling 20)
  = Some (Running,
          mk_mstate (Main.mk [] [] [check_s3_fn; check_status_fn] 20 false) 0
            [ListObjects S3Config.bucket "pag_estuary/pending/" "" 1000;
             Sleep 15 1;
             ListObjects S3Config.bucket "pag_estuary/pending/" "" 1000;
             Sleep 15 1;
             ListObjects S3Config.bucket "pag_estuary/pending/" "" 1000;
             Sleep 15 1]).
Proof. vm_compute. reflexivity. Qed.

(** * Further properties *)

(** ** The gateway: moving and listing *)

Lemma trace_HasTraceLaws : HasTraceLaws (list call).
Proof. split; reflexivity. Qed.

#[global] Existing Instance trace_HasTraceLaws.

Lemma st_HasTraceLaws : HasTraceLaws st.
Proof. split; reflexivity. Qed.

#[global] Existing Instance st_HasTraceLaws.

Lemma mstate_HasTraceLaws : HasTraceLaws mstate.
Proof. split; reflexivity. Qed.

#[global] Existing Instance mstate_HasTraceLaws.

(** X1: [move_file] issues the copy first and the removal of the source
    only when the copy returned.  When the copy raises, its exception is
    what [move_file] raises and no removal is requested, so the source
    object is still there; otherwise the removal of the source follows
    and decides how [move_file] ends. *)
Theorem move_file_copy_then_delete (env : environment)
    (bucket source destination : string) (t : list call) :
  let copy := CopyObject bucket (bucket +:+ "/" +:+ source) destination in
  let delete := DeleteObject bucket source in
  S3Helper.move_file env bucket source destination t
  = match env_fault env t copy with
    | Some e => (Raise e, t ++ [copy])
    | None =>
        match env_fault env (t ++ [copy]) delete with
        | Some e => (Raise e, t ++ [copy; delete])
        | None => (Ok tt, t ++ [copy; delete])
        end
    end.
Proof.
  intros copy delete.
  unfold S3Helper.move_file, S3Helper.copy_file, S3Helper.delete_file, bind,
    extcall; simpl.
  fold copy. fold delete.
  destruct (env_fault env t copy); [reflexivity|].
  rewrite <- app_assoc. simpl.
  destruct (env_fault env (t ++ [copy]) delete); reflexivity.
Qed.

Lemma listings_snoc (t : list call) (c : call) :
  listings (t ++ [c]) = (listings t + (if is_list c then 1 else 0))%nat.
Proof.
  unfold listings. rewrite filter_app, length_app.
  destruct (is_list c) eqn:Hc.
  - rewrite filter_cons_True by done. reflexivity.
  - rewrite filter_cons_False by (rewrite Hc; done). reflexivity.
Qed.

Lemma last_nonempty {A : Type} (l : list A) : l <> [] -> exists x, last l = Some x.
Proof.
  induction l as [|a l IH]; [done|]. intros _.
  destruct l as [|b l]; [by exists a|].
  destruct IH as [x Hx]; [done|]. exists x. exact Hx.
Qed.

Section Paging.
Context {S : Type} `{HasTraceLaws S}.
Context (pages : list (list s3_object)) (bucket prefix : string).
Hypothesis pages_nonempty : Forall (fun page => page <> []) pages.

(** The loop of [list_files] from page [k] on, against a store that does
    not fail. *)
Lemma list_files_loop_pages (fuel : nat) :
  forall (k : nat) (acc : list s3_object) (total : Z) (s : S),
    listings (get_trace s) = k ->
    (k < length pages)%nat ->
    (length pages - k <= fuel)%nat ->
    S3Helper.list_files_loop (paged_store pages None) fuel bucket prefix
      (marker_after pages k) acc total s
    = Some (Ok (acc ++ concat (drop k pages)),
            set_trace
              (get_trace s
               ++ list_requests bucket prefix pages k (length pages - k)) s).
Proof using All.
  induction fuel as [|fuel IH]; intros k acc total s Hk Hlt Hfuel; [lia|].
  destruct (lookup_lt_is_Some_2 pages k Hlt) as [page Hpage].
  assert (page <> []) as Hne.
  { rewrite Forall_forall in pages_nonempty. apply pages_nonempty.
    eapply list_elem_of_lookup_2; eauto. }
  cbn [S3Helper.list_files_loop]. unfold client_list_objects.
  cbn [env_list_objects paged_store]. rewrite Hk, Hpage, String.eqb_refl.
  cbn [Contents IsTruncated].
  assert (drop k pages = page :: drop (Datatypes.S k) pages) as Hdrop
    by (by apply drop_S).
  assert (length pages - k = Datatypes.S (length pages - Datatypes.S k))%nat
    as Hlen by lia.
  rewrite Hdrop, Hlen. unfold list_requests. cbn [seq map concat].
  case_bool_decide as Hmore.
  - destruct (last_nonempty page Hne) as [o Ho]. rewrite Ho.
    assert (Key o = marker_after pages (Datatypes.S k)) as ->.
    { cbn [marker_after]. by rewrite Hpage, Ho. }
    rewrite IH; [|rewrite get_set_trace, listings_snoc, Hk; simpl; lia|lia|lia].
    rewrite get_set_trace, set_set_trace, <- !app_assoc. reflexivity.
  - assert (length pages - Datatypes.S k = 0)%nat as -> by lia.
    rewrite (drop_ge pages (Datatypes.S k)) by lia.
    cbn [seq map concat]. rewrite app_nil_r. reflexivity.
Qed.

(** The same loop when request number [j] raises [e]. *)
Lemma list_files_loop_page_error (j : nat) (e : exn) (fuel : nat) :
  forall (k : nat) (acc : list s3_object) (total : Z) (s : S),
    listings (get_trace s) = k ->
    (k <= j)%nat ->
    (j < length pages)%nat ->
    (j - k < fuel)%nat ->
    S3Helper.list_files_loop (paged_store pages (Some (j, e))) fuel bucket
      prefix (marker_after pages k) acc total s
    = Some (Raise e,
            set_trace
              (get_trace s
               ++ list_requests bucket prefix pages k (Datatypes.S j - k)) s).
Proof using All.
  induction fuel as [|fuel IH]; intros k acc total s Hk Hkj Hlt Hfuel; [lia|].
  cbn [S3Helper.list_files_loop]. unfold client_list_objects.
  cbn [env_list_objects paged_store]. rewrite Hk.
  assert (Datatypes.S j - k = Datatypes.S (j - k))%nat as -> by lia.
  unfold list_requests. cbn [seq map].
  destruct (Nat.eqb_spec k j) as [->|Hneq].
  - rewrite Nat.sub_diag. reflexivity.
  - assert (k < length pages)%nat as Hklt by lia.
    destruct (lookup_lt_is_Some_2 pages k Hklt) as [page Hpage].
    assert (page <> []) as Hne.
    { rewrite Forall_forall in pages_nonempty. apply pages_nonempty.
      eapply list_elem_of_lookup_2; eauto. }
    rewrite Hpage, String.eqb_refl. cbn [Contents IsTruncated].
    rewrite bool_decide_true by lia.
    destruct (last_nonempty page Hne) as [o Ho]. rewrite Ho.
    assert (Key o = marker_after pages (Datatypes.S k)) as ->.
    { cbn [marker_after]. by rewrite Hpage, Ho. }
    rewrite IH; [|rewrite get_set_trace, listings_snoc, Hk; simpl; lia|lia|lia|lia].
    rewrite get_set_trace, set_set_trace, <- !app_assoc. reflexivity.
Qed.
End Paging.

(** X2: [list_files] pages through a listing that the store hands out in
    several truncated responses.  With one pass of the loop for each page
    it returns the objects of all pages in the order of the store, having
    sent one request per page, each for at most 1000 keys of the given
    bucket and prefix and each but the first with the last key of the page
    before as its marker. *)
Theorem list_files_returns_all_pages (pages : list (list s3_object))
    (bucket prefix : string) (t : list call) (fuel : nat) :
  Forall (fun page => page <> []) pages ->
  pages <> [] ->
  listings t = 0%nat ->
  (length pages <= fuel)%nat ->
  S3Helper.list_files (paged_store pages None) fuel bucket prefix t
  = Some (Ok (concat pages),
          t ++ list_requests bucket prefix pages 0 (length pages)).
Proof.
  intros Hne Hpages Ht Hfuel. unfold S3Helper.list_files.
  assert (0 < length pages)%nat as Hlen by (destruct pages; [done|simpl; lia]).
  pose proof (list_files_loop_pages (S := list call) pages bucket prefix Hne
                fuel 0 [] 0 t Ht Hlen) as Hl.
  rewrite Nat.sub_0_r in Hl. specialize (Hl Hfuel).
  exact Hl.
Qed.

Lemma list_files_returns_all_pages_witness :
  S3Helper.list_files
    (paged_store [[mk_s3_object "p/a" 1 10; mk_s3_object "p/b" 2 20];
                  [mk_s3_object "p/c" 3 30]] None) 2 "bucket" "p/" []
  = Some (Ok (concat [[mk_s3_object "p/a" 1 10; mk_s3_object "p/b" 2 20];
                      [mk_s3_object "p/c" 3 30]]),
          [] ++ list_requests "bucket" "p/"
                  [[mk_s3_object "p/a" 1 10; mk_s3_object "p/b" 2 20];
                   [mk_s3_object "p/c" 3 30]] 0
                  (length [[mk_s3_object "p/a" 1 10; mk_s3_object "p/b" 2 20];
                           [mk_s3_object "p/c" 3 30]])).
Proof.
  apply (list_files_returns_all_pages
           [[mk_s3_object "p/a" 1 10; mk_s3_object "p/b" 2 20];
            [mk_s3_object "p/c" 3 30]] "bucket" "p/" [] 2).
  - repeat constructor; discriminate.
  - discriminate.
  - reflexivity.
  - simpl. lia.
Defined.

(** The requests of the witness: the second carries the last key of the
    first page. *)
Example two_pages_requests :
  list_requests "bucket" "p/"
    [[mk_s3_object "p/a" 1 10; mk_s3_object "p/b" 2 20];
     [mk_s3_object "p/c" 3 30]] 0 2
  = [ListObjects "bucket" "p/" "" 1000; ListObjects "bucket" "p/" "p/b" 1000].
Proof. reflexivity. Qed.

(** X3: when a later request of a listing raises, [list_files] raises the
    same exception and the pages it had collected are lost with it: the
    cycle of [check_s3] ends there, with no message enqueued and the
    high-water mark, the queues and the id counter as they were, although
    [j] pages had been received. *)
Theorem late_listing_failure_discards_pages (pages : list (list s3_object))
    (j : nat) (e : exn) (s : mstate) (fuel : nat) :
  Forall (fun page => page <> []) pages ->
  listings (m_trace s) = 0%nat ->
  (j < length pages)%nat ->
  (j < fuel)%nat ->
  check_s3 (paged_store pages (Some (j, e))) fuel s
  = Some (Raise e,
          mk_mstate (main s) (next_id s)
            (m_trace s
             ++ list_requests S3Config.bucket (S3Config.root +:+ "/pending/")
                  pages 0 (S j))).
Proof.
  intros Hne Ht Hj Hfuel.
  pose proof (list_files_loop_page_error (S := mstate) pages S3Config.bucket
                (S3Config.root +:+ "/pending/") Hne j e fuel 0 [] 0 s Ht) as Hl.
  rewrite !Nat.sub_0_r in Hl.
  specialize (Hl ltac:(lia) Hj Hfuel).
  unfold check_s3, S3Helper.list_files. cbn [marker_after] in Hl.
  rewrite Hl. reflexivity.
Qed.

Lemma late_listing_failure_discards_pages_witness :
  check_s3
    (paged_store [[mk_s3_object "pag_estuary/pending/c/mmr_1" 5 10];
                  [mk_s3_object "pag_estuary/pending/c/mmr_2" 6 10]]
       (Some (1%nat, ExternalError "SlowDown"))) 2 (polling 0)
  = Some (Raise (ExternalError "SlowDown"),
          mk_mstate (main (polling 0)) (next_id (polling 0))
            (m_trace (polling 0)
             ++ list_requests S3Config.bucket (S3Config.root +:+ "/pending/")
                  [[mk_s3_object "pag_estuary/pending/c/mmr_1" 5 10];
                   [mk_s3_object "pag_estuary/pending/c/mmr_2" 6 10]] 0 2)).
Proof.
  apply (late_listing_failure_discards_pages
           [[mk_s3_object "pag_estuary/pending/c/mmr_1" 5 10];
            [mk_s3_object "pag_estuary/pending/c/mmr_2" 6 10]]
           1 (ExternalError "SlowDown") (polling 0) 2).
  - repeat constructor; discriminate.
  - reflexivity.
  - simpl. lia.
  - lia.
Defined.

(** ** ImportTask: a key that [_parse] accepts *)

Lemma split_no_sep (sep : ascii) (s : string) :
  occurs sep s = false -> split sep s = [s].
Proof.
  induction s as [|c s IH]; simpl; [done|].
  intros Ho. apply orb_false_iff in Ho as [Hc Hs].
  rewrite Hc, IH by done. reflexivity.
Qed.

Lemma split_sep (sep : ascii) (a b : string) :
  occurs sep a = false ->
  split sep (a +:+ String sep EmptyString +:+ b) = a :: split sep b.
Proof.
  induction a as [|c a IH]; simpl.
  - intros _. by rewrite Ascii.eqb_refl.
  - intros Ho. apply orb_false_iff in Ho as [Hc Ha].
    rewrite Hc. simpl in IH. rewrite IH by done. reflexivity.
Qed.

Lemma occurs_app (sep : ascii) (a b : string) :
  occurs sep (a +:+ b) = occurs sep a || occurs sep b.
Proof.
  induction a as [|c a IH]; simpl; [done|].
  rewrite IH. by rewrite orb_assoc.
Qed.

Lemma slice_from_app (a b : string) :
  slice_from (String.length a) (a +:+ b) = b.
Proof. induction a as [|c a IH]; simpl; [by destruct b|exact IH]. Qed.

(** [_parse] at a key of the layout it expects. *)
Lemma parse_layout (s : st) (prefix folder client file_type version : string) :
  TaskObject.dict (self s) !! "file_path"
  = Some (VStr (prefix +:+ folder +:+ "/" +:+ client +:+ "/"
                +:+ file_type +:+ "_" +:+ version)) ->
  String.length prefix = (String.length S3Config.root + 1)%nat ->
  occurs "/" folder = false ->
  occurs "/" client = false ->
  occurs "/" file_type = false ->
  occurs "/" version = false ->
  occurs "_" file_type = false ->
  occurs "_" version = false ->
  str_in file_type file_types = true ->
  _parse s
  = (Ok tt,
     set_self
       (TaskObject.set_dict
          (parsed client file_type version (TaskObject.dict (self s)))
          (self s)) s).
Proof.
  intros Hfp Hlen Hfolder Hclient Htype1 Hversion1 Htype2 Hversion2 Hin.
  assert (split "/" (slice_from (String.length S3Config.root + 1)
                       (prefix +:+ folder +:+ "/" +:+ client +:+ "/"
                        +:+ file_type +:+ "_" +:+ version))
          = [folder; client; file_type +:+ "_" +:+ version]) as Hsplit1.
  { rewrite <- Hlen, slice_from_app.
    rewrite (split_sep "/" folder) by done.
    rewrite (split_sep "/" client) by done.
    rewrite split_no_sep; [done|].
    rewrite occurs_app, Htype1. simpl. exact Hversion1. }
  assert (split "_" (file_type +:+ "_" +:+ version) = [file_type; version])
    as Hsplit2.
  { rewrite (split_sep "_" file_type) by done.
    by rewrite split_no_sep. }
  unfold _parse, self_str. unfold bind at 1. unfold bind at 1.
  unfold self_attr at 1. unfold getattr. rewrite Hfp.
  cbn [as_str ret]. cbv zeta. rewrite Hsplit1.
  destruct s as [[c tm sm d] w t].
  cbn [length Nat.eqb assert_ index lookup list_lookup ret bind self_setattr
       modify set_self TaskObject.set_dict TaskObject.dict self worker trace
       TaskObject.class TaskObject.task_message TaskObject.status_message].
  unfold bind, ret, self_setattr, modify, index; cbn [lookup list_lookup].
  rewrite Hsplit2.
  cbn [length Nat.eqb assert_ index lookup list_lookup ret bind self_setattr
       modify set_self TaskObject.set_dict TaskObject.dict self worker trace
       TaskObject.class TaskObject.task_message TaskObject.status_message].
  rewrite Hin.
  reflexivity.
Qed.



(** ** What no task does *)

Lemma keeps_preorder {S X : Type} (f : S -> X) : PreOrder (keeps f).
Proof.
  split.
  - intros s. reflexivity.
  - intros s1 s2 s3 H1 H2. unfold keeps in *. congruence.
Qed.

#[global] Existing Instance keeps_preorder.

Lemma issues_preorder (P : call -> bool) : PreOrder (issues P).
Proof.
  split.
  - intros s. exists []. by rewrite app_nil_r.
  - intros s1 s2 s3 (l1 & H1 & F1) (l2 & H2 & F2). exists (l1 ++ l2).
    rewrite H2, H1, app_assoc. split; [done|by apply Forall_app_2].
Qed.

#[global] Existing Instance issues_preorder.

Section Preserves.
Context {S : Type} (R : relation S) `{!PreOrder R}.

Lemma preserves_ret {A : Type} (a : A) : preserves R (ret a).
Proof using All. intros s r s' H. unfold ret in H. by simplify_eq. Qed.

Lemma preserves_raise {A : Type} (e : exn) : preserves R (@raise S A e).
Proof using All. intros s r s' H. unfold raise in H. by simplify_eq. Qed.

Lemma preserves_gets {A : Type} (f : S -> A) : preserves R (gets f).
Proof using All. intros s r s' H. unfold gets in H. by simplify_eq. Qed.

Lemma preserves_getattr {A : Type} (name : string) (f : S -> option A) :
  preserves R (getattr name f).
Proof using All.
  intros s r s' H. unfold getattr in H. destruct (f s); by simplify_eq.
Qed.

Lemma preserves_modify (f : S -> S) :
  (forall s, R s (f s)) -> preserves R (modify f).
Proof using All. intros Hf s r s' H. unfold modify in H. simplify_eq. apply Hf. Qed.

Lemma preserves_bind {A B : Type} (m : M S A) (k : A -> M S B) :
  preserves R m -> (forall a, preserves R (k a)) -> preserves R (bind m k).
Proof using All.
  intros Hm Hk s r s' H. unfold bind in H.
  destruct (m s) as [[a|e] s1] eqn:Hms.
  - transitivity s1; [eapply Hm; eauto|eapply Hk; eauto].
  - simplify_eq. eapply Hm; eauto.
Qed.

Lemma preserves_try_except {A : Type} (m : M S A) (h : exn -> M S A) :
  preserves R m -> (forall e, preserves R (h e)) ->
  preserves R (try_except m h).
Proof using All.
  intros Hm Hh s r s' H. unfold try_except in H.
  destruct (m s) as [[a|e] s1] eqn:Hms.
  - simplify_eq. eapply Hm; eauto.
  - transitivity s1; [eapply Hm; eauto|eapply Hh; eauto].
Qed.

Lemma preserves_try_finally {A : Type} (m : M S A) (f : M S unit) :
  preserves R m -> preserves R f -> preserves R (try_finally m f).
Proof using All.
  intros Hm Hf s r s' H. unfold try_finally in H.
  destruct (m s) as [r1 s1] eqn:Hms.
  destruct (f s1) as [[[]|e] s2] eqn:Hfs; simplify_eq;
    (transitivity s1; [eapply Hm; eauto|eapply Hf; eauto]).
Qed.

Lemma preserves_as_str (v : pyval) : preserves R (as_str v).
Proof using All. destruct v; [apply preserves_ret|apply preserves_raise]. Qed.

Lemma preserves_assert (b : bool) (msg : string) : preserves R (assert_ b msg).
Proof using All. destruct b; [apply preserves_ret|apply preserves_raise]. Qed.

Lemma preserves_index (l : list string) (i : nat) : preserves R (index l i).
Proof using All.
  unfold index. destruct (l !! i); [apply preserves_ret|apply preserves_raise].
Qed.
End Preserves.

(** A relation that holds across every call that is [allowed] holds
    across the methods that only read attributes and issue calls, as far as
    the calls they issue are allowed. *)
Section CallFrame.
Context (env : environment) (R : relation st) `{!PreOrder R}.
Context (allowed : call -> bool).
Hypothesis R_call :
  forall s c, allowed c = true ->
              R s (mk_st (self s) (worker s) (trace s ++ [c])).

Lemma preserves_self_attr (name : string) : preserves R (self_attr name).
Proof using All. apply (preserves_getattr R). Qed.

Lemma preserves_extcall (c : call) :
  allowed c = true -> preserves R (extcall env c).
Proof using All.
  intros Hc s r s' H. unfold extcall in H. simpl in H.
  destruct (env_fault env (trace s) c); simplify_eq; by apply R_call.
Qed.

Lemma preserves_time_sleep (num den : Z) :
  allowed (Sleep num den) = true ->
  preserves R (time_sleep (S := st) num den).
Proof using All.
  intros Hc. unfold time_sleep.
  destruct (num <? 0); [apply (preserves_raise R)|].
  intros s r s' H. simpl in H. simplify_eq. by apply R_call.
Qed.

Ltac preserve :=
  repeat first
    [ progress cbv beta zeta
    | apply (preserves_bind R); [|intros ?]
    | apply (preserves_try_except R); [|intros ?]
    | apply (preserves_ret R)
    | apply (preserves_raise R)
    | apply (preserves_gets R)
    | apply (preserves_as_str R)
    | apply preserves_self_attr
    | apply preserves_time_sleep;
      match goal with H : forall c, _ -> allowed c = true |- _ => apply H end;
      reflexivity
    | apply preserves_extcall;
      match goal with H : forall c, _ -> allowed c = true |- _ => apply H end;
      reflexivity
    | match goal with
      | |- preserves _ (match ?x with _ => _ end) => destruct x
      end ].

Lemma preserves_stages :
  (forall c, is_stage_call c = true -> allowed c = true) ->
  preserves R
    (_download env ;; _preprocess env ;; _upload env ;; _import ;; _postprocess).
Proof using All.
  intros Hall.
  unfold _download, _preprocess, _upload, _import, _postprocess, os_makedirs,
    shutil_copyfile, s3_download_file, s3_upload_file, S3Helper.download_file,
    S3Helper.upload_file.
  preserve.
Qed.

Lemma preserves_remove_local (path folder : string) :
  (forall c, is_removal c = true -> allowed c = true) ->
  preserves R (remove_local env path folder).
Proof using All.
  intros Hall. unfold remove_local, os_remove, os_rmdir. preserve.
Qed.

Lemma preserves_cleanup_local :
  (forall c, is_removal c = true -> allowed c = true) ->
  preserves R (ImportTask_cleanup_local env).
Proof using All.
  intros Hall. unfold ImportTask_cleanup_local.
  apply (preserves_bind R); [by apply preserves_remove_local|intros _].
  apply (preserves_bind R); [by apply preserves_remove_local|intros _].
  unfold s3_delete_file, S3Helper.delete_file. preserve.
Qed.

Lemma preserves_move_file (source destination : pyval) :
  (forall c, task_call c = true -> allowed c = true) ->
  preserves R (s3_move_file env S3Config.bucket source destination).
Proof using All.
  intros Hall.
  unfold s3_move_file, S3Helper.move_file, S3Helper.copy_file,
    S3Helper.delete_file.
  preserve.
Qed.

Lemma removal_task_call (c : call) : is_removal c = true -> task_call c = true.
Proof. by destruct c. Qed.

Lemma stage_task_call (c : call) : is_stage_call c = true -> task_call c = true.
Proof. by destruct c. Qed.

Lemma preserves_ImportTask_cleanup :
  (forall c, task_call c = true -> allowed c = true) ->
  preserves R (ImportTask_cleanup env).
Proof using All.
  intros Hall. unfold ImportTask_cleanup.
  apply (preserves_bind R); [apply (preserves_gets R)|intros v].
  apply (preserves_bind R).
  - destruct v;
      (apply (preserves_bind R); [apply preserves_self_attr|intros ?];
       apply (preserves_bind R); [apply preserves_self_attr|intros ?];
       by apply preserves_move_file).
  - intros _. apply preserves_cleanup_local.
    auto using removal_task_call.
Qed.

Lemma preserves_TestTask_do :
  (forall c, task_call c = true -> allowed c = true) ->
  preserves R TestTask_do.
Proof using All. intros Hall. unfold TestTask_do, TestTask_sleep. preserve. Qed.

Lemma preserves_cleanup :
  (forall c, task_call c = true -> allowed c = true) ->
  preserves R (cleanup env).
Proof using All.
  intros Hall s r s' H. unfold cleanup in H.
  destruct (TaskObject.class (self s)).
  - eapply (preserves_raise R); eauto.
  - eapply (preserves_ret R); eauto.
  - eapply (preserves_ret R); eauto.
  - eapply preserves_ImportTask_cleanup; eauto.
Qed.
End CallFrame.

(** A relation that holds, in addition, across an assignment to an
    attribute holds across [_parse], and so across [do]. *)
Section TaskFrame.
Context (env : environment) (R : relation st) `{!PreOrder R}.
Context (allowed : call -> bool).
Hypothesis R_dict :
  forall s d, R s (set_self (TaskObject.set_dict d (self s)) s).
Hypothesis R_call :
  forall s c, allowed c = true ->
              R s (mk_st (self s) (worker s) (trace s ++ [c])).
Hypothesis allowed_task_call :
  forall c, task_call c = true -> allowed c = true.

Lemma preserves_self_setattr (name : string) (v : pyval) :
  preserves R (self_setattr name v).
Proof using All. apply (preserves_modify R). intros s. apply R_dict. Qed.

Lemma preserves_parse : preserves R _parse.
Proof using All.
  unfold _parse, self_str.
  repeat first
    [ progress cbv beta zeta
    | apply (preserves_bind R); [|intros ?]
    | apply (preserves_ret R)
    | apply (preserves_as_str R)
    | apply (preserves_assert R)
    | apply (preserves_index R)
    | apply (preserves_getattr R)
    | apply preserves_self_setattr ].
Qed.

Lemma preserves_ImportTask_do : preserves R (ImportTask_do env).
Proof using All.
  unfold ImportTask_do.
  apply (preserves_bind R); [apply preserves_parse|intros _].
  apply (preserves_stages env R allowed R_call).
  auto using stage_task_call.
Qed.

(** [do], for a relation that also holds when a KillSelfTask sets the
    [stop] attribute of its worker. *)
Lemma preserves_do :
  (forall s, TaskObject.class (self s) = KillSelfTask ->
             R s (set_worker (Worker.set_stop true (worker s)) s)) ->
  preserves R (do env).
Proof using All.
  intros R_stop s r s' H. unfold do in H.
  destruct (TaskObject.class (self s)) eqn:Hc.
  - eapply (preserves_raise R); eauto.
  - eapply (preserves_TestTask_do env R allowed R_call); eauto.
  - unfold KillSelfTask_do, modify in H. simplify_eq. by apply R_stop.
  - eapply preserves_ImportTask_do; eauto.
Qed.

(** The whole [try] statement of [Worker.run], for a relation that also
    holds across the assignment of the status and across the [put]. *)
Lemma preserves_do_task :
  (forall s, TaskObject.class (self s) = KillSelfTask ->
             R s (set_worker (Worker.set_stop true (worker s)) s)) ->
  (forall s m, R s (set_self (TaskObject.set_status_message m (self s)) s)) ->
  (forall s q, R s (set_worker (Worker.set_status_queue q (worker s)) s)) ->
  preserves R (do_task env).
Proof using All.
  intros R_stop R_status R_put. unfold do_task.
  assert (forall v, preserves R (set_status_value v ;; put_status)) as Hput.
  { intros v. apply (preserves_bind R); [|intros _];
      apply (preserves_modify R); intros s; [apply R_status|apply R_put]. }
  apply (preserves_try_finally R);
    [|by apply (preserves_cleanup env R allowed R_call)].
  apply (preserves_try_except R); [|intros _; apply Hput].
  apply (preserves_bind R); [by apply preserves_do|intros _; apply Hput].
Qed.
End TaskFrame.

(** ** What every task does *)

Lemma globals_TestTask : globals !! "TestTask" = Some (GTaskClass TestTask).
Proof. vm_compute. reflexivity. Qed.

Lemma globals_ImportTask :
  globals !! "ImportTask" = Some (GTaskClass ImportTask).
Proof. vm_compute. reflexivity. Qed.

Lemma globals_Task : globals !! "Task" = Some (GTaskClass Task).
Proof. vm_compute. reflexivity. Qed.

Lemma globals_kill_name (name : string) :
  globals !! name = Some (GTaskClass KillSelfTask) -> name = "KillSelfTask".
Proof.
  intros Hl. unfold globals in Hl.
  apply elem_of_list_to_map_2 in Hl.
  repeat (apply elem_of_cons in Hl as [Hl|Hl]; [by simplify_eq|]).
  inversion Hl.
Qed.

(** The task [to_task] builds, when it builds one. *)
Lemma to_task_ok (task_message : TaskMessage.t) (task : TaskObject.t) :
  to_task task_message = Ok task ->
  TaskObject.task_message task = task_message
  /\ TaskObject.status_message task
     = StatusMessage.mk in_progress task_message
  /\ (TaskObject.class task = KillSelfTask ->
      TaskMessage.type task_message = "KillSelfTask").
Proof.
  unfold to_task, TestTask_init, ImportTask_init.
  destruct (globals !! TaskMessage.type task_message) as [[[]|]|] eqn:Hg;
    repeat case_match; intros Ht; simplify_eq; cbn;
    repeat split; try discriminate.
  intros _. by apply globals_kill_name.
Qed.

Lemma task_frame_keeps (env : environment) (s s' : st) (r : outcome unit) :
  do env s = (r, s') \/ cleanup env s = (r, s') ->
  task_frame s' = task_frame s.
Proof.
  assert (forall s d, keeps task_frame s
                        (set_self (TaskObject.set_dict d (self s)) s))
    as Hdict by (by intros [[] ? ?] ?).
  assert (forall s c, (fun _ : call => true) c = true ->
                      keeps task_frame s
                        (mk_st (self s) (worker s) (trace s ++ [c])))
    as Hcall by (by intros [[] ? ?] ? ?).
  intros [H|H].
  - eapply (preserves_do env (keeps task_frame) (fun _ => true) Hdict Hcall);
      [done| |exact H].
    intros [[c ? ? ?] [? ? ?] ?] Hc. simpl in Hc. subst c. reflexivity.
  - eapply (preserves_cleanup env (keeps task_frame) (fun _ => true) Hcall);
      [done|exact H].
Qed.

(** The [try] statement of [Worker.run] on any task: [do], one status
    message, [cleanup]. *)
Lemma do_task_reports (env : environment) (s : st) :
  exists r s',
    do_task env s = (r, s')
    /\ Worker.status_queue (worker s')
       = Worker.status_queue (worker s)
         ++ [StatusMessage.mk
               (match (do env s).1 with Ok _ => success | Raise _ => failure end)
               (StatusMessage.task_message (TaskObject.status_message (self s)))]
    /\ Worker.task_queue (worker s') = Worker.task_queue (worker s)
    /\ (TaskObject.class (self s) <> KillSelfTask ->
        Worker.stop (worker s') = Worker.stop (worker s)).
Proof.
  unfold do_task, try_finally, try_except, bind.
  destruct (do env s) as [r1 s1] eqn:Hdo.
  pose proof (task_frame_keeps env s s1 r1 (or_introl Hdo)) as H1.
  set (v := match (r1, s1).1 with Ok _ => success | Raise _ => failure end).
  set (s2 := mk_st
               (TaskObject.set_status_message
                  (StatusMessage.mk v
                     (StatusMessage.task_message
                        (TaskObject.status_message (self s1)))) (self s1))
               (Worker.set_status_queue
                  (Worker.status_queue (worker s1)
                   ++ [StatusMessage.mk v
                         (StatusMessage.task_message
                            (TaskObject.status_message (self s1)))])
                  (worker s1))
               (trace s1)).
  assert (match r1 with
          | Ok _ =>
              match set_status_value success s1 with
              | (Ok _, s') => put_status s'
              | (Raise e, s') => (Raise e, s')
              end
          | Raise _ =>
              match set_status_value failure s1 with
              | (Ok _, s') => put_status s'
              | (Raise e, s') => (Raise e, s')
              end
          end = (Ok tt, s2)) as H2.
  { subst s2 v. by destruct r1. }
  destruct r1 as [[]|e]; rewrite H2;
    destruct (cleanup env s2) as [r3 s3] eqn:Hcl;
    pose proof (task_frame_keeps env s2 s3 r3 (or_intror Hcl)) as H3;
    exists r3, s3;
    (split; [by destruct r3 as [[]|]|]);
    unfold task_frame in H1, H3; subst s2;
    destruct s as [[] [] ?], s1 as [[] [] ?], s3 as [[] [] ?];
    simpl in *; simplify_eq; repeat split; try done;
    intros Hc;
    match goal with c : task_class |- _ => destruct c end; congruence.
Qed.

Lemma do_task_issues (env : environment) (s s' : st) (r : outcome unit) :
  do_task env s = (r, s') -> issues task_call s s'.
Proof.
  assert (forall s1 s2 : st, trace s2 = trace s1 -> issues task_call s1 s2)
    as Hsame.
  { intros s1 s2 Ht. exists []. by rewrite app_nil_r. }
  apply (preserves_do_task env (issues task_call) task_call).
  - intros s1 d. by apply Hsame.
  - intros s1 c Hc. exists [c]. split; [done|]. by constructor.
  - done.
  - intros s1 _. by apply Hsame.
  - intros s1 m. by apply Hsame.
  - intros s1 q. by apply Hsame.
Qed.

(** X5: whatever message a worker claims and whatever the store and the
    file system answer, the calls the worker issues for it contain no
    listing, and every request to the store among them (upload, download,
    copy, delete) names [S3Config.bucket]. *)
Theorem tasks_call_only_their_bucket (env : environment)
    (task_message : TaskMessage.t) (p : process) :
  exists calls,
    p_trace (claim env task_message p).2 = p_trace p ++ calls
    /\ Forall (fun c => task_call c = true) calls.
Proof.
  unfold claim. destruct (to_task task_message) as [task|e].
  - destruct (do_task env (mk_st task (p_worker p) (p_trace p)))
      as [r s'] eqn:Hd.
    apply do_task_issues in Hd. exact Hd.
  - exists []. by rewrite app_nil_r.
Qed.

(** X6: for every message that [to_task] turns into a task, of whatever
    class, the worker puts exactly one status message on the status queue,
    behind those that were there: it carries the claimed message, and its
    value is [success] when [do] returned and [failure] when [do] raised,
    never [in_progress].  This holds whether or not [cleanup] raises
    afterwards. *)
Theorem one_status_per_task (env : environment)
    (task_message : TaskMessage.t) (task : TaskObject.t) (p : process) :
  to_task task_message = Ok task ->
  exists r p',
    claim env task_message p = (r, p')
    /\ Worker.status_queue (p_worker p')
       = Worker.status_queue (p_worker p)
         ++ [StatusMessage.mk
               (match (do env (mk_st task (p_worker p) (p_trace p))).1 with
                | Ok _ => success
                | Raise _ => failure
                end)
               task_message].
Proof.
  intros Ht. unfold claim. rewrite Ht.
  destruct (to_task_ok _ _ Ht) as (_ & Hsm & _).
  destruct (do_task_reports env (mk_st task (p_worker p) (p_trace p)))
    as (r & s' & Hd & Hq & _).
  rewrite Hd. eexists _, _. split; [reflexivity|].
  cbn [p_worker self worker] in *. rewrite Hq, Hsm. reflexivity.
Qed.

Lemma one_status_per_task_witness :
  exists r p',
    claim unreachable (import_message 1 "pag_estuary/pending/c/mmr_2017")
      (fresh_worker []) = (r, p')
    /\ Worker.status_queue (p_worker p')
       = Worker.status_queue (p_worker (fresh_worker []))
         ++ [StatusMessage.mk
               (match (do unreachable
                         (mk_st
                            (TaskObject.mk ImportTask
                               (import_message 1 "pag_estuary/pending/c/mmr_2017")
                               (StatusMessage.mk in_progress
                                  (import_message 1
                                     "pag_estuary/pending/c/mmr_2017"))
                               (<["file_path" :=
                                    VStr "pag_estuary/pending/c/mmr_2017"]> ∅))
                            (p_worker (fresh_worker []))
                            (p_trace (fresh_worker [])))).1 with
                | Ok _ => success
                | Raise _ => failure
                end)
               (import_message 1 "pag_estuary/pending/c/mmr_2017")].
Proof.
  apply (one_status_per_task unreachable
           (import_message 1 "pag_estuary/pending/c/mmr_2017")
           (TaskObject.mk ImportTask
              (import_message 1 "pag_estuary/pending/c/mmr_2017")
              (StatusMessage.mk in_progress
                 (import_message 1 "pag_estuary/pending/c/mmr_2017"))
              (<["file_path" := VStr "pag_estuary/pending/c/mmr_2017"]> ∅))
           (fresh_worker [])).
  vm_compute. reflexivity.
Defined.

(** X7: no task adds a message to the task queue or takes one from it,
    and no task but a KillSelfTask changes the [stop] attribute of the
    worker that runs it: after a message of any other type the worker goes
    on to the next pass of its loop, unless an exception left it. *)
Theorem only_kill_self_sets_stop (env : environment)
    (task_message : TaskMessage.t) (p : process) :
  TaskMessage.type task_message <> "KillSelfTask" ->
  Worker.stop (p_worker (claim env task_message p).2) = Worker.stop (p_worker p)
  /\ Worker.task_queue (p_worker (claim env task_message p).2)
     = Worker.task_queue (p_worker p).
Proof.
  intros Hty. unfold claim.
  destruct (to_task task_message) as [task|e] eqn:Ht; [|done].
  destruct (to_task_ok _ _ Ht) as (_ & _ & Hkill).
  destruct (do_task_reports env (mk_st task (p_worker p) (p_trace p)))
    as (r & s' & Hd & _ & Hq & Hstop).
  rewrite Hd. cbn [p_worker self worker snd] in *.
  split; [|exact Hq]. apply Hstop. intros Hc. by apply Hty, Hkill.
Qed.

Lemma only_kill_self_sets_stop_witness :
  Worker.stop
    (p_worker (claim unreachable (import_message 1 "pag_estuary/pending/c/mmr_2017")
                 (fresh_worker [test_message 2 2])).2)
  = Worker.stop (p_worker (fresh_worker [test_message 2 2]))
  /\ Worker.task_queue
       (p_worker (claim unreachable
                    (import_message 1 "pag_estuary/pending/c/mmr_2017")
                    (fresh_worker [test_message 2 2])).2)
     = Worker.task_queue (p_worker (fresh_worker [test_message 2 2])).
Proof.
  apply (only_kill_self_sets_stop unreachable
           (import_message 1 "pag_estuary/pending/c/mmr_2017")
           (fresh_worker [test_message 2 2])).
  discriminate.
Defined.

(** ** ImportTask: from the parse to the move *)

(** The [try] statement of [Worker.run] ends as [cleanup] ends: what [do]
    raised was caught. *)
Lemma do_task_is_cleanup (env : environment) (s : st) :
  do_task env s = cleanup env (at_cleanup env s).
Proof.
  unfold do_task, try_finally, at_cleanup.
  assert ((try_except (do env ;; set_status_value success ;; put_status)
             (fun _ => set_status_value failure ;; put_status) s).1 = Ok tt)
    as Hok.
  { unfold try_except, bind. by destruct (do env s) as [[[]|e] s1]. }
  destruct (try_except _ _ s) as [r s2]. simpl in *. subst r.
  by destruct (cleanup env s2) as [[[]|e] s3].
Qed.

Lemma at_cleanup_after_do (env : environment) (s s1 : st) (r1 : outcome unit) :
  do env s = (r1, s1) ->
  let m := StatusMessage.mk
             (match r1 with Ok _ => success | Raise _ => failure end)
             (StatusMessage.task_message (TaskObject.status_message (self s1))) in
  at_cleanup env s
  = mk_st (TaskObject.set_status_message m (self s1))
      (Worker.set_status_queue (Worker.status_queue (worker s1) ++ [m])
         (worker s1))
      (trace s1).
Proof.
  intros Hdo. unfold at_cleanup, try_except, bind. rewrite Hdo.
  by destruct r1.
Qed.

Lemma to_task_import (id : Z) (file_path : string) :
  to_task (import_message id file_path) = Ok (self (importing id file_path)).
Proof.
  unfold to_task. cbn [TaskMessage.type import_message].
  rewrite globals_ImportTask. unfold ImportTask_init.
  cbn [TaskMessage.args import_message].
  by rewrite lookup_singleton_eq.
Qed.

Lemma ImportTask_cleanup_unfold (env : environment) (s : st) :
  ImportTask_cleanup env s
  = bind
      (match StatusMessage.value (TaskObject.status_message (self s)) with
       | success =>
           let* file_path := self_attr "file_path" in
           let* accepted_path := self_attr "accepted_path" in
           s3_move_file env S3Config.bucket file_path accepted_path
       | _ =>
           let* file_path := self_attr "file_path" in
           let* rejected_path := self_attr "rejected_path" in
           s3_move_file env S3Config.bucket file_path rejected_path
       end)
      (fun _ => ImportTask_cleanup_local env) s.
Proof. reflexivity. Qed.

Lemma issues_call (P : call -> bool) (s : st) (c : call) :
  P c = true -> issues P s (mk_st (self s) (worker s) (trace s ++ [c])).
Proof. intros Hc. exists [c]. split; [done|]. by constructor. Qed.

Lemma keeps_task_and_worker_call (s : st) (c : call) :
  (fun _ : call => true) c = true ->
  keeps task_and_worker s (mk_st (self s) (worker s) (trace s ++ [c])).
Proof. done. Qed.

(** A guarded removal returns, whatever happens inside. *)
Lemma remove_local_ok (env : environment) (path folder : string) (s : st) :
  exists s',
    remove_local env path folder s = (Ok tt, s')
    /\ task_and_worker s' = task_and_worker s
    /\ issues is_removal s s'.
Proof.
  destruct (remove_local env path folder s) as [r s'] eqn:Hr.
  pose proof (preserves_remove_local env (keeps task_and_worker) (fun _ => true)
                keeps_task_and_worker_call path folder ltac:(done) _ _ _ Hr)
    as Hk.
  pose proof (preserves_remove_local env (issues is_removal) is_removal
                (issues_call is_removal) path folder ltac:(done) _ _ _ Hr)
    as Hi.
  exists s'. split; [|done].
  unfold remove_local, try_except in Hr.
  destruct (bind _ _ s) as [[[]|e] s1]; unfold ret in Hr; by simplify_eq.
Qed.

(** The end of [cleanup] when the upload path is known: both removals
    return, and the removal of the processed object decides. *)
Lemma cleanup_local_spec (env : environment) (s : st) (upload_path : string) :
  TaskObject.dict (self s) !! "upload_path" = Some (VStr upload_path) ->
  exists r s',
    ImportTask_cleanup_local env s = (r, s')
    /\ task_and_worker s' = task_and_worker s
    /\ issues is_removal s s'
    /\ ((forall t b k, env_fault env t (DeleteObject b k) = None) -> r = Ok tt).
Proof.
  intros Hu. unfold ImportTask_cleanup_local. unfold bind at 1.
  destruct (remove_local_ok env "download_path" "download_folder" s)
    as (s1 & -> & Hk1 & Hi1).
  unfold bind at 1.
  destruct (remove_local_ok env "processed_path" "processed_folder" s1)
    as (s2 & -> & Hk2 & Hi2).
  assert (task_and_worker s2 = task_and_worker s) as Hk by congruence.
  assert (issues is_removal s s2) as Hi by (by transitivity s1).
  assert (TaskObject.dict (self s2) !! "upload_path" = Some (VStr upload_path))
    as Hu2.
  { unfold task_and_worker in Hk. injection Hk as Hself _. by rewrite Hself. }
  unfold bind, self_attr, getattr. rewrite Hu2.
  unfold s3_delete_file, bind, as_str, ret, S3Helper.delete_file, extcall.
  cbn [get_trace set_trace st_HasTrace].
  set (c := DeleteObject S3Config.bucket upload_path).
  exists (match env_fault env (trace s2) c with
          | Some e => Raise e
          | None => Ok tt
          end), (mk_st (self s2) (worker s2) (trace s2 ++ [c])).
  split; [by destruct (env_fault env (trace s2) c)|].
  split; [exact Hk|].
  split; [transitivity s2; [exact Hi|by apply issues_call]|].
  intros Hnone. unfold c. by rewrite Hnone.
Qed.

(** [cleanup] when the paths it moves between are known: the copy to the
    folder that the status selects is the first call, and every call after
    it is a removal.  When the copy raises, [cleanup] ends there, with the
    source in place. *)
Lemma cleanup_move_first (env : environment) (s : st)
    (file_path destination upload_path : string) :
  TaskObject.dict (self s) !! "file_path" = Some (VStr file_path) ->
  TaskObject.dict (self s)
  !! (match StatusMessage.value (TaskObject.status_message (self s)) with
      | success => "accepted_path"
      | _ => "rejected_path"
      end) = Some (VStr destination) ->
  TaskObject.dict (self s) !! "upload_path" = Some (VStr upload_path) ->
  let copy := CopyObject S3Config.bucket
                (S3Config.bucket +:+ "/" +:+ file_path) destination in
  exists r s' after,
    ImportTask_cleanup env s = (r, s')
    /\ trace s' = trace s ++ copy :: after
    /\ Forall (fun c => is_removal c = true) after
    /\ task_and_worker s' = task_and_worker s
    /\ (forall e, env_fault env (trace s) copy = Some e ->
                  r = Raise e /\ after = [])
    /\ ((forall t c, is_copy c || is_delete c = true ->
                     env_fault env t c = None) -> r = Ok tt).
Proof.
  intros Hfp Hdest Hup copy.
  rewrite ImportTask_cleanup_unfold.
  set (delete := DeleteObject S3Config.bucket file_path).
  assert ((match StatusMessage.value (TaskObject.status_message (self s)) with
           | success =>
               let* file_path := self_attr "file_path" in
               let* accepted_path := self_attr "accepted_path" in
               s3_move_file env S3Config.bucket file_path accepted_path
           | _ =>
               let* file_path := self_attr "file_path" in
               let* rejected_path := self_attr "rejected_path" in
               s3_move_file env S3Config.bucket file_path rejected_path
           end) s
          = match env_fault env (trace s) copy with
            | Some e => (Raise e, mk_st (self s) (worker s) (trace s ++ [copy]))
            | None =>
                match env_fault env (trace s ++ [copy]) delete with
                | Some e =>
                    (Raise e,
                     mk_st (self s) (worker s) (trace s ++ [copy; delete]))
                | None =>
                    (Ok tt,
                     mk_st (self s) (worker s) (trace s ++ [copy; delete]))
                end
            end) as Hmove.
  { destruct (StatusMessage.value (TaskObject.status_message (self s)));
      unfold bind, self_attr, getattr; rewrite Hfp, Hdest;
      unfold s3_move_file, bind, as_str, ret, S3Helper.move_file, bind,
        S3Helper.copy_file, S3Helper.delete_file, extcall;
      cbn [get_trace set_trace st_HasTrace self worker trace];
      fold copy; fold delete;
      (destruct (env_fault env (trace s) copy); [reflexivity|]);
      cbn [self worker trace]; rewrite <- app_assoc; cbn [app];
      by destruct (env_fault env (trace s ++ [copy]) delete). }
  unfold bind at 1. rewrite Hmove.
  destruct (env_fault env (trace s) copy) as [e|] eqn:Hcopy.
  { eexists _, _, []. split; [reflexivity|].
    split; [done|]. split; [done|]. split; [done|]. split.
    - intros e' He'. by simplify_eq.
    - intros Hnone. rewrite (Hnone (trace s) copy) in Hcopy; done. }
  destruct (env_fault env (trace s ++ [copy]) delete) as [e|] eqn:Hdelete.
  { eexists _, _, [delete]. split; [reflexivity|].
    split; [done|]. split; [by repeat constructor|]. split; [done|].
    split; [done|].
    intros Hnone. rewrite (Hnone (trace s ++ [copy]) delete) in Hdelete; done. }
  destruct (cleanup_local_spec env
              (mk_st (self s) (worker s) (trace s ++ [copy; delete]))
              upload_path Hup)
    as (r & s' & -> & Hk & (after & Ht & Hafter) & Hok).
  exists r, s', (delete :: after). split; [reflexivity|].
  split; [rewrite Ht; cbn [trace]; by rewrite <- app_assoc|].
  split; [constructor; [reflexivity|exact Hafter]|].
  split; [exact Hk|].
  split; [done|].
  intros Hnone. apply Hok. intros t b k. by apply Hnone.
Qed.

Lemma parsed_file_path (client file_type version : string)
    (d : gmap string pyval) :
  parsed client file_type version d !! "file_path" = d !! "file_path".
Proof. unfold parsed. cbv zeta. by rewrite !lookup_insert_ne by discriminate. Qed.

Lemma parsed_paths (client file_type version : string)
    (d : gmap string pyval) :
  let file_name := file_type +:+ "_" +:+ version in
  parsed client file_type version d !! "accepted_path"
  = Some (VStr (S3Config.root +:+ "/accepted/" +:+ client +:+ "/" +:+ file_name))
  /\ parsed client file_type version d !! "rejected_path"
     = Some (VStr (S3Config.root +:+ "/rejected/" +:+ client +:+ "/" +:+ file_name))
  /\ parsed client file_type version d !! "upload_path"
     = Some (VStr (S3Config.root +:+ "/processed/" +:+ client +:+ "/" +:+ file_name)).
Proof.
  unfold parsed. cbv zeta.
  repeat split;
    repeat first [ rewrite lookup_insert_eq; reflexivity
                 | rewrite lookup_insert_ne by discriminate ].
Qed.

(** [do] of the ImportTask for a well-formed key of the pending folder:
    the parse succeeds, and the stages that follow only issue their own
    calls. *)
Lemma do_import_well_formed (env : environment) (id : Z)
    (client file_type version : string) (w : Worker.t) (t : list call) :
  occurs "/" client = false ->
  occurs "/" file_type = false ->
  occurs "/" version = false ->
  occurs "_" file_type = false ->
  occurs "_" version = false ->
  str_in file_type file_types = true ->
  let key := pending_key client file_type version in
  exists r1 before,
    do env (mk_st (self (importing id key)) w t)
    = (r1,
       mk_st
         (TaskObject.set_dict
            (parsed client file_type version (<["file_path" := VStr key]> ∅))
            (self (importing id key)))
         w (t ++ before))
    /\ Forall (fun c => is_stage_call c = true) before.
Proof.
  intros Hclient Htype1 Hversion1 Htype2 Hversion2 Hin key.
  set (s0 := mk_st (self (importing id key)) w t).
  unfold do. cbn [TaskObject.class self importing s0].
  fold s0. unfold ImportTask_do. unfold bind at 1.
  rewrite (parse_layout s0 "pag_estuary/" "pending" client file_type version)
    by first [by apply lookup_insert_eq | done].
  set (s1 := set_self _ s0).
  destruct ((_download env ;; _preprocess env ;; _upload env ;; _import ;;
             _postprocess) s1) as [r1 s1'] eqn:Hst.
  pose proof (preserves_stages env (keeps task_and_worker) (fun _ => true)
                keeps_task_and_worker_call ltac:(done) _ _ _ Hst) as Hk.
  destruct (preserves_stages env (issues is_stage_call) is_stage_call
              (issues_call is_stage_call) ltac:(done) _ _ _ Hst)
    as (before & Ht & Hbefore).
  exists r1, before. split; [|exact Hbefore].
  unfold task_and_worker in Hk. injection Hk as Hself Hworker.
  destruct s1' as [o' w' t']. cbn [self worker trace] in *.
  by subst o' w' t'.
Qed.

(** What a worker does with the message for a well-formed key of the
    pending folder. *)
Lemma claim_import_well_formed (env : environment) (id : Z)
    (client file_type version : string) (p : process) :
  occurs "/" client = false ->
  occurs "/" file_type = false ->
  occurs "/" version = false ->
  occurs "_" file_type = false ->
  occurs "_" version = false ->
  str_in file_type file_types = true ->
  let key := pending_key client file_type version in
  let task_message := import_message id key in
  exists r p' value before after,
    claim env task_message p = (r, p')
    /\ (value = success \/ value = failure)
    /\ Worker.status_queue (p_worker p')
       = Worker.status_queue (p_worker p)
         ++ [StatusMessage.mk value task_message]
    /\ p_trace p'
       = p_trace p ++ before
         ++ CopyObject S3Config.bucket (S3Config.bucket +:+ "/" +:+ key)
              (S3Config.root
               +:+ (match value with
                    | success => "/accepted/"
                    | _ => "/rejected/"
                    end)
               +:+ client +:+ "/" +:+ file_type +:+ "_" +:+ version)
         :: after
    /\ Forall (fun c => is_stage_call c = true) before
    /\ Forall (fun c => is_removal c = true) after
    /\ ((forall t c, is_copy c || is_delete c = true ->
                     env_fault env t c = None) -> r = Ok tt).
Proof.
  intros Hclient Htype1 Hversion1 Htype2 Hversion2 Hin key task_message.
  destruct p as [w t]. unfold claim. cbn [p_worker p_trace].
  unfold task_message. rewrite to_task_import, do_task_is_cleanup.
  destruct (do_import_well_formed env id client file_type version w t)
    as (r1 & before & Hdo & Hbefore); try done.
  fold key in Hdo.
  rewrite (at_cleanup_after_do _ _ _ _ Hdo). cbv zeta.
  cbn [self worker trace importing TaskObject.set_dict
       TaskObject.set_status_message TaskObject.class TaskObject.task_message
       TaskObject.status_message TaskObject.dict StatusMessage.task_message].
  set (value := match r1 with Ok _ => success | Raise _ => failure end).
  set (s2 := mk_st _ _ _).
  unfold cleanup. unfold s2 at 1.
  unfold TaskObject.set_status_message at 1, TaskObject.set_dict at 1.
  cbn [self TaskObject.class].
  destruct (parsed_paths client file_type version
              (<["file_path" := VStr key]> ∅)) as (Hacc & Hrej & Hup).
  cbv zeta in Hacc, Hrej, Hup.
  destruct (cleanup_move_first env s2 key
              (S3Config.root
               +:+ (match value with
                    | success => "/accepted/"
                    | _ => "/rejected/"
                    end)
               +:+ client +:+ "/" +:+ file_type +:+ "_" +:+ version)
              (S3Config.root +:+ "/processed/" +:+ client +:+ "/"
               +:+ file_type +:+ "_" +:+ version))
    as (r & s' & after & Hc & Ht & Hafter & Hk & _ & Hok).
  { subst s2. unfold TaskObject.set_status_message, TaskObject.set_dict.
    cbn [self TaskObject.dict]. rewrite parsed_file_path.
    by apply lookup_insert_eq. }
  { subst s2 value. unfold TaskObject.set_status_message, TaskObject.set_dict.
    cbn [self TaskObject.dict TaskObject.status_message StatusMessage.value].
    by destruct r1. }
  { exact Hup. }
  rewrite Hc.
  exists r, (mk_process (worker s') (trace s')), value, before, after.
  split; [reflexivity|].
  split; [subst value; destruct r1; auto|].
  unfold task_and_worker in Hk. injection Hk as _ Hworker.
  cbn [p_worker p_trace]. rewrite Hworker, Ht. subst s2.
  unfold Worker.set_status_queue.
  cbn [worker trace Worker.status_queue].
  split; [reflexivity|].
  split; [by rewrite <- app_assoc|].
  split; [exact Hbefore|]. split; [exact Hafter|exact Hok].
Qed.

(** X8: for a key of the pending folder that [_parse] accepts, the worker
    issues exactly one copy request, whatever the store and the file
    system answer: it copies the key to the accepted folder when the status
    it reported is [success] and to the rejected folder when it is
    [failure].  Before the copy it only issues calls of the stages of
    [do], after it only removals. *)
Theorem well_formed_key_is_moved_once (env : environment) (id : Z)
    (client file_type version : string) (p : process) :
  occurs "/" client = false ->
  occurs "/" file_type = false ->
  occurs "/" version = false ->
  occurs "_" file_type = false ->
  occurs "_" version = false ->
  str_in file_type file_types = true ->
  exists r p' value before after,
    claim env (import_message id (pending_key client file_type version)) p
    = (r, p')
    /\ (value = success \/ value = failure)
    /\ Worker.status_queue (p_worker p')
       = Worker.status_queue (p_worker p)
         ++ [StatusMessage.mk value
               (import_message id (pending_key client file_type version))]
    /\ p_trace p'
       = p_trace p ++ before
         ++ CopyObject S3Config.bucket
              (S3Config.bucket +:+ "/"
               +:+ pending_key client file_type version)
              (S3Config.root
               +:+ (match value with
                    | success => "/accepted/"
                    | _ => "/rejected/"
                    end)
               +:+ client +:+ "/" +:+ file_type +:+ "_" +:+ version)
         :: after
    /\ Forall (fun c => is_stage_call c = true) before
    /\ Forall (fun c => is_removal c = true) after.
Proof.
  intros Hclient Htype1 Hversion1 Htype2 Hversion2 Hin.
  destruct (claim_import_well_formed env id client file_type version p)
    as (r & p' & value & before & after & Hc & Hv & Hq & Ht & Hb & Ha & _);
    try done.
  exists r, p', value, before, after. auto 10.
Qed.

Lemma well_formed_key_is_moved_once_witness :
  exists r p' value before after,
    claim unreachable (import_message 1 (pending_key "c" "mmr" "2017"))
      (fresh_worker [])
    = (r, p')
    /\ (value = success \/ value = failure)
    /\ Worker.status_queue (p_worker p')
       = Worker.status_queue (p_worker (fresh_worker []))
         ++ [StatusMessage.mk value
               (import_message 1 (pending_key "c" "mmr" "2017"))]
    /\ p_trace p'
       = p_trace (fresh_worker []) ++ before
         ++ CopyObject S3Config.bucket
              (S3Config.bucket +:+ "/" +:+ pending_key "c" "mmr" "2017")
              (S3Config.root
               +:+ (match value with
                    | success => "/accepted/"
                    | _ => "/rejected/"
                    end)
               +:+ "c" +:+ "/" +:+ "mmr" +:+ "_" +:+ "2017")
         :: after
    /\ Forall (fun c => is_stage_call c = true) before
    /\ Forall (fun c => is_removal c = true) after.
Proof.
  apply (well_formed_key_is_moved_once unreachable 1 "c" "mmr" "2017"
           (fresh_worker [])); reflexivity.
Defined.

(** X9: for a key of the pending folder that [_parse] accepts, no failure
    of a stage of [do] and no failure of the local file system ends the
    worker.  As long as the copy and delete requests to the store do not
    raise, the guarded execution returns and the worker goes on to its
    next pass, even when every download, upload, [makedirs], [copyfile],
    [remove] and [rmdir] raises. *)
Theorem worker_survives_failed_stages (env : environment) (id : Z)
    (client file_type version : string) (p : process) :
  occurs "/" client = false ->
  occurs "/" file_type = false ->
  occurs "/" version = false ->
  occurs "_" file_type = false ->
  occurs "_" version = false ->
  str_in file_type file_types = true ->
  (forall t c, is_copy c || is_delete c = true -> env_fault env t c = None) ->
  (claim env (import_message id (pending_key client file_type version)) p).1
  = Ok tt.
Proof.
  intros Hclient Htype1 Hversion1 Htype2 Hversion2 Hin Hstore.
  destruct (claim_import_well_formed env id client file_type version p)
    as (r & p' & value & before & after & Hc & _ & _ & _ & _ & _ & Hok);
    try done.
  rewrite Hc. by apply Hok.
Qed.

Lemma worker_survives_failed_stages_witness :
  (claim disk_fails (import_message 1 (pending_key "c" "mmr" "2017"))
     (fresh_worker [])).1
  = Ok tt.
Proof.
  apply (worker_survives_failed_stages disk_fails 1 "c" "mmr" "2017"
           (fresh_worker [])); try reflexivity.
  intros t c Hc. destruct c; try discriminate Hc; reflexivity.
Defined.

(** With the disk refusing every operation the download folder cannot be
    made: the task fails, the file goes to the rejected folder and the
    worker goes on. *)
Example import_with_failing_disk :
  Worker_run disk_fails 2
    (fresh_worker [import_message 1 (pending_key "c" "mmr" "2017")])
  = (Waiting,
     mk_process
       (Worker.mk []
          [StatusMessage.mk failure
             (import_message 1 (pending_key "c" "mmr" "2017"))] false)
       [Makedirs "C:/Altegra/Code/pa-estuary/data/download/c";
        CopyObject S3Config.bucket
          (S3Config.bucket +:+ "/pag_estuary/pending/c/mmr_2017")
          "pag_estuary/rejected/c/mmr_2017";
        DeleteObject S3Config.bucket "pag_estuary/pending/c/mmr_2017";
        Remove "C:/Altegra/Code/pa-estuary/data/download/c/mmr_2017";
        Remove "C:/Altegra/Code/pa-estuary/data/processed/c/mmr_2017";
        DeleteObject S3Config.bucket "pag_estuary/processed/c/mmr_2017"]).
Proof. vm_compute. reflexivity. Qed.

Lemma snoc_all {A : Type} (l : list A) :
  forall t, t ++ l = foldl (fun acc c => acc ++ [c]) t l.
Proof.
  induction l as [|a l IH]; intros t; simpl; [by rewrite app_nil_r|].
  rewrite <- IH, <- app_assoc. reflexivity.
Qed.

(** X10: when no call fails, the ImportTask for a key of the pending
    folder that [_parse] accepts runs to its end: the worker reports
    [success] and has issued, in this order, the download into the folder
    of the client, the copy that stands for the preprocessing, the upload
    of the processed file, the move of the key to the accepted folder, the
    removal of both local files with their folders and the removal of the
    processed object. *)
Theorem import_runs_to_accepted
    (listing : list call -> string -> string -> string -> Z ->
               outcome list_objects_response)
    (id : Z) (client file_type version : string) (p : process) :
  occurs "/" client = false ->
  occurs "/" file_type = false ->
  occurs "/" version = false ->
  occurs "_" file_type = false ->
  occurs "_" version = false ->
  str_in file_type file_types = true ->
  claim (faultless listing)
    (import_message id (pending_key client file_type version)) p
  = (Ok tt,
     mk_process
       (Worker.set_status_queue
          (Worker.status_queue (p_worker p)
           ++ [StatusMessage.mk success
                 (import_message id (pending_key client file_type version))])
          (p_worker p))
       (p_trace p ++ import_calls client file_type version)).
Proof.
  intros Hclient Htype1 Hversion1 Htype2 Hversion2 Hin.
  destruct p as [[tq sq stop] t]. unfold claim. cbn [p_worker p_trace].
  rewrite to_task_import, do_task_is_cleanup.
  set (s0 := mk_st _ _ _).
  assert (do (faultless listing) s0
          = (Ok tt,
             mk_st
               (TaskObject.set_dict
                  (parsed client file_type version
                     (<["file_path" :=
                          VStr (pending_key client file_type version)]> ∅))
                  (self s0))
               (Worker.mk tq sq stop)
               (foldl (fun acc c => acc ++ [c]) t
                  (firstn 5 (import_calls client file_type version)))))
    as Hdo.
  { unfold do. unfold s0 at 1. cbn [TaskObject.class self importing].
    unfold ImportTask_do. unfold bind at 1.
    rewrite (parse_layout s0 "pag_estuary/" "pending" client file_type version)
      by first [by apply lookup_insert_eq | done].
    subst s0. vm_compute. reflexivity. }
  rewrite (at_cleanup_after_do _ _ _ _ Hdo).
  rewrite (snoc_all (import_calls client file_type version) t).
  subst s0. vm_compute. reflexivity.
Qed.

Lemma import_runs_to_accepted_witness :
  claim (faultless (fun _ _ _ _ _ => Ok (mk_response None false)))
    (import_message 1 (pending_key "c" "mmr" "2017")) (fresh_worker [])
  = (Ok tt,
     mk_process
       (Worker.set_status_queue
          (Worker.status_queue (p_worker (fresh_worker []))
           ++ [StatusMessage.mk success
                 (import_message 1 (pending_key "c" "mmr" "2017"))])
          (p_worker (fresh_worker [])))
       (p_trace (fresh_worker []) ++ import_calls "c" "mmr" "2017")).
Proof.
  apply (import_runs_to_accepted (fun _ _ _ _ _ => Ok (mk_response None false))
           1 "c" "mmr" "2017" (fresh_worker [])); reflexivity.
Defined.

(** ** The worker loop on the other classes *)

Lemma Worker_run_S (env : environment) (fuel : nat) (p : process) :
  Worker_run env (S fuel) p
  = match Worker_iteration env p with
    | (Running, p') => Worker_run env fuel p'
    | (e, p') => (e, p')
    end.
Proof. reflexivity. Qed.

Lemma Worker_iteration_claim (env : environment) (task_message : TaskMessage.t)
    (rest : list TaskMessage.t) (sq : list StatusMessage.t) (t : list call) :
  Worker_iteration env (mk_process (Worker.mk (task_message :: rest) sq false) t)
  = match claim env task_message (mk_process (Worker.mk rest sq false) t) with
    | (Ok _, p2) => (Running, p2)
    | (Raise e, p2) => (Crashed e, p2)
    end.
Proof. reflexivity. Qed.

(** X11: a TestTask message without [wait_time] and an ImportTask message
    without [file_path] make the initializer of the task raise KeyError.
    This happens in [to_task], before the [try] statement of [Worker.run]:
    no status is reported, no call is issued, and the exception ends the
    loop of the worker with the rest of the queue unclaimed. *)
Theorem missing_argument_ends_worker (env : environment)
    (task_message : TaskMessage.t) (rest : list TaskMessage.t)
    (sq : list StatusMessage.t) (t : list call) (key : string) (fuel : nat) :
  (TaskMessage.type task_message = "TestTask" /\ key = "wait_time")
  \/ (TaskMessage.type task_message = "ImportTask" /\ key = "file_path") ->
  TaskMessage.args task_message !! key = None ->
  Worker_run env (S fuel)
    (mk_process (Worker.mk (task_message :: rest) sq false) t)
  = (Crashed (KeyError key), mk_process (Worker.mk rest sq false) t).
Proof.
  intros Hty Hargs. rewrite Worker_run_S, Worker_iteration_claim.
  unfold claim, to_task.
  destruct Hty as [[-> ->]|[-> ->]].
  - rewrite globals_TestTask. unfold TestTask_init. by rewrite Hargs.
  - rewrite globals_ImportTask. unfold ImportTask_init. by rewrite Hargs.
Qed.

Lemma missing_argument_ends_worker_witness :
  Worker_run quiet 3
    (mk_process
       (Worker.mk [TaskMessage.mk 1 "ImportTask" ∅; test_message 2 2] [] false)
       [])
  = (Crashed (KeyError "file_path"),
     mk_process (Worker.mk [test_message 2 2] [] false) []).
Proof.
  apply (missing_argument_ends_worker quiet (TaskMessage.mk 1 "ImportTask" ∅)
           [test_message 2 2] [] [] "file_path" 2).
  - right. split; reflexivity.
  - reflexivity.
Defined.

(** X12: a message whose type is [Task], the abstract class, is accepted
    by [to_task].  Its [do] raises NotImplementedError, so the worker
    reports [failure]; then its [cleanup] raises NotImplementedError as
    well, from the [finally] clause, and that exception ends the loop of
    the worker. *)
Theorem abstract_task_ends_worker (env : environment)
    (task_message : TaskMessage.t) (rest : list TaskMessage.t)
    (sq : list StatusMessage.t) (t : list call) (fuel : nat) :
  TaskMessage.type task_message = "Task" ->
  Worker_run env (S fuel)
    (mk_process (Worker.mk (task_message :: rest) sq false) t)
  = (Crashed (NotImplementedError "Task subclass must override cleanup()"),
     mk_process
       (Worker.mk rest (sq ++ [StatusMessage.mk failure task_message]) false)
       t).
Proof.
  intros Hty. rewrite Worker_run_S, Worker_iteration_claim.
  unfold claim, to_task. rewrite Hty, globals_Task. reflexivity.
Qed.

Lemma abstract_task_ends_worker_witness :
  Worker_run quiet 3
    (mk_process
       (Worker.mk [TaskMessage.mk 1 "Task" ∅; test_message 2 2] [] false) [])
  = (Crashed (NotImplementedError "Task subclass must override cleanup()"),
     mk_process
       (Worker.mk [test_message 2 2]
          ([] ++ [StatusMessage.mk failure (TaskMessage.mk 1 "Task" ∅)]) false)
       []).
Proof.
  apply (abstract_task_ends_worker quiet (TaskMessage.mk 1 "Task" ∅)
           [test_message 2 2] [] [] 2).
  reflexivity.
Defined.

(** [TestTask.do] when [wait_time] is known. *)
Lemma TestTask_do_run (s : st) (v : pyval) :
  TaskObject.dict (self s) !! "wait_time" = Some v ->
  TestTask_do s
  = match v with
    | VInt z =>
        if z <? 0 then (Raise ValueError, s)
        else (Ok tt,
              mk_st (self s) (worker s)
                (trace s ++ [Sleep z 3; Sleep z 3; Sleep z 3]))
    | VStr _ => (Raise TypeError, s)
    end.
Proof.
  intros Hw. destruct s as [o w t]. cbn [self] in Hw.
  unfold TestTask_do, TestTask_sleep, bind, self_attr, getattr.
  cbn [self]. rewrite Hw. destruct v as [x|z]; [reflexivity|].
  unfold time_sleep, raise. destruct (z <? 0) eqn:Hz; [reflexivity|].
  simpl. rewrite Hw, Hz. simpl. rewrite Hw, Hz. simpl.
  by rewrite <- !app_assoc.
Qed.

(** What claiming a TestTask message does to the worker process. *)
Lemma claim_TestTask (env : environment) (task_message : TaskMessage.t)
    (w : Worker.t) (t : list call) :
  TaskMessage.type task_message = "TestTask" ->
  is_Some (TaskMessage.args task_message !! "wait_time") ->
  claim env task_message (mk_process w t)
  = (Ok tt,
     mk_process
       (Worker.set_status_queue
          (Worker.status_queue w ++ [test_report task_message]) w)
       (t ++ test_sleeps task_message)).
Proof.
  intros Hty [v Hargs]. unfold claim, to_task.
  rewrite Hty, globals_TestTask. unfold TestTask_init. rewrite Hargs.
  cbn [p_worker p_trace]. rewrite do_task_is_cleanup.
  set (s0 := mk_st _ w t).
  assert (TaskObject.dict (self s0) !! "wait_time" = Some v) as Hw
    by apply lookup_insert_eq.
  assert (do env s0 = TestTask_do s0) as Hdo by reflexivity.
  rewrite (TestTask_do_run s0 v Hw) in Hdo.
  unfold test_report, test_sleeps. rewrite Hargs.
  destruct v as [x|z]; [|destruct (z <? 0)];
    rewrite (at_cleanup_after_do env s0 _ _ Hdo); subst s0;
    rewrite ?app_nil_r; reflexivity.
Qed.



(** The reports of the witness: the task with a negative [wait_time]
    fails, after the first has slept three times. *)
Example test_reports :
  map test_report [test_message 1 2; test_message 2 (-1)]
  = [StatusMessage.mk success (test_message 1 2);
     StatusMessage.mk failure (test_message 2 (-1))]
  /\ concat (map test_sleeps [test_message 1 2; test_message 2 (-1)])
     = [Sleep 2 3; Sleep 2 3; Sleep 2 3].
Proof. split; vm_compute; reflexivity. Qed.

(** ** The main loop over many passes *)






Lemma import_messages_upper (objs : list s3_object) :
  forall id,
    Forall (fun m => TaskMessage.id m <= id + Z.of_nat (length objs))
      (import_messages id objs).
Proof.
  induction objs as [|o rest IH]; intros id; simpl; constructor.
  - simpl. lia.
  - eapply Forall_impl; [apply (IH (id + 1))|]. simpl. intros; lia.
Qed.

(** Appending the messages of a cycle keeps the ids fresh. *)
Lemma fresh_ids_append (m : Main.t) (id : Z) (t t' : list call)
    (objs : list s3_object) (mark : Z) :
  fresh_ids (mk_mstate m id t) ->
  fresh_ids
    (mk_mstate
       (Main.set_max_s3_time mark
          (Main.set_task_queue (Main.task_queue m ++ import_messages id objs) m))
       (id + Z.of_nat (length objs)) t').
Proof.
  intros [Hle Hnd]. destruct m as [tq sq lf mk stop].
  unfold fresh_ids in *. simpl in *.
  destruct (import_messages_ids objs id) as [Hlt Hnd'].
  pose proof (import_messages_upper objs id) as Hup.
  split.
  - apply Forall_app_2; [|exact Hup].
    eapply Forall_impl; [exact Hle|]. simpl. intros; lia.
  - rewrite map_app. apply NoDup_app. split; [exact Hnd|]. split; [|exact Hnd'].
    intros x Hx Hx'.
    apply list_elem_of_fmap in Hx as (m1 & -> & Hm1).
    apply list_elem_of_fmap in Hx' as (m2 & Heq & Hm2).
    rewrite Forall_forall in Hle, Hlt.
    specialize (Hle _ Hm1). specialize (Hlt _ Hm2). lia.
Qed.

Lemma fresh_ids_same (s s' : mstate) :
  Main.task_queue (main s') = Main.task_queue (main s) ->
  next_id s' = next_id s ->
  fresh_ids s -> fresh_ids s'.
Proof. unfold fresh_ids. intros -> ->. done. Qed.

Lemma check_s3_fresh (env : environment) (fuel : nat) (s s' : mstate)
    (r : outcome unit) :
  check_s3 env fuel s = Some (r, s') -> fresh_ids s -> fresh_ids s'.
Proof.
  intros Hc Hf.
  destruct (S3Helper.list_files env fuel S3Config.bucket
              (S3Config.root +:+ "/pending/") s) as [[[results|e] s1]|] eqn:Hl.
  - rewrite (check_s3_ok _ _ _ _ _ Hl) in Hc. simplify_eq.
    destruct s as [m id t]. by apply (fresh_ids_append m id t).
  - destruct (check_s3_raise _ _ _ _ _ Hl) as (Hc' & Hm & Hn).
    rewrite Hc' in Hc. simplify_eq.
    apply (fresh_ids_same s); [by rewrite Hm|done|done].
  - unfold check_s3 in Hc. rewrite Hl in Hc. discriminate Hc.
Qed.

Lemma call_all_fresh (env : environment) (fuel : nat)
    (fs : list looped_function) :
  forall s s', call_all env fuel fs s = Some s' -> fresh_ids s -> fresh_ids s'.
Proof.
  induction fs as [|f fs IH]; intros s s' Hc Hf; simpl in Hc.
  - by simplify_eq.
  - destruct (call_looped env fuel f s) as [[r s1]|] eqn:Hf1; [|discriminate Hc].
    apply (IH s1); [exact Hc|].
    destruct f; simpl in Hf1.
    + eapply check_s3_fresh; eauto.
    + unfold check_status, modify in Hf1. simplify_eq.
      apply (fresh_ids_same s); [by destruct s as [[]]|done|done].
Qed.

Lemma Main_iteration_fresh (env : environment) (fuel : nat) (s s' : mstate)
    (r : run_end) :
  Main_iteration env fuel s = Some (r, s') -> fresh_ids s -> fresh_ids s'.
Proof.
  unfold Main_iteration. intros Hi Hf.
  destruct (Main.stop (main s)); [by simplify_eq|].
  destruct (call_all env fuel (Main.looped_functions (main s)) s)
    as [s1|] eqn:Hc; [|discriminate Hi].
  apply call_all_fresh in Hc; [|done].
  unfold time_sleep in Hi. simpl in Hi. simplify_eq.
  by apply (fresh_ids_same s1).
Qed.

(** X15: message ids stay unique.  When the ids on the task queue are
    different from each other and none exceeds [TaskMessage.next_id], this
    is still so after [create_test_task] and after any number of passes of
    [Main.run], whatever the store lists and whether or not a poll
    raises: every message the main process adds gets an id that no queued
    message has. *)
Theorem ids_stay_fresh (env : environment) (fuel : nat) (n : nat) :
  forall s,
    fresh_ids s ->
    fresh_ids (create_test_task s).2
    /\ match Main_run env n fuel s with
       | Some (_, s') => fresh_ids s'
       | None => True
       end.
Proof.
  intros s Hf. split.
  - destruct s as [[tq sq lf mk stop] id t]. destruct Hf as [Hle Hnd].
    unfold fresh_ids in *. simpl in *. split.
    + apply Forall_app_2; [|repeat constructor; simpl; lia].
      eapply Forall_impl; [exact Hle|]. simpl. intros; lia.
    + rewrite map_app. apply NoDup_app. split; [exact Hnd|].
      split; [|repeat constructor; set_solver].
      intros x Hx Hx'. apply list_elem_of_fmap in Hx as (m1 & -> & Hm1).
      rewrite Forall_forall in Hle. specialize (Hle _ Hm1).
      simpl in Hx'. apply list_elem_of_singleton in Hx'. lia.
  - revert s Hf. induction n as [|n IH]; intros s Hf; simpl; [done|].
    destruct (Main_iteration env fuel s) as [[r1 s1]|] eqn:Hi; [|done].
    pose proof (Main_iteration_fresh _ _ _ _ _ Hi Hf) as Hf1.
    destruct r1; try done. by apply IH.
Qed.

Lemma ids_stay_fresh_witness :
  fresh_ids (create_test_task (polling 20)).2
  /\ match Main_run (one_page sample_listing) 2 1 (polling 20) with
     | Some (_, s') => fresh_ids s'
     | None => True
     end.
Proof.
  apply (ids_stay_fresh (one_page sample_listing) 1 2 (polling 20)).
  split; constructor.
Defined.

Lemma produced_again (mark : Z) (results results' : list s3_object) :
  Forall (fun o => o ∈ results) results' ->
  produced (newest mark (produced mark results)) results' = [].
Proof.
  intros Hsub. unfold produced at 1.
  induction Hsub as [|o rest Ho _ IH]; [reflexivity|].
  rewrite filter_cons_False; [exact IH|].
  intros [Hsize Hnew].
  pose proof (newest_ge (produced mark results) mark) as Hge.
  assert (o ∈ produced mark results) as Hin.
  { unfold produced. apply list_elem_of_filter. split; [split; [done|lia]|done]. }
  pose proof (newest_bounds (produced mark results) mark) as Hb.
  rewrite Forall_forall in Hb. specialize (Hb _ Hin). lia.
Qed.

(** X16: no object is enqueued twice as long as it is listed with the
    same [LastModified].  After a cycle whose listing returned [results],
    a later cycle whose listing returns only objects that were among
    [results] (all of them again, or those that no worker has moved away
    yet) adds no message and leaves the high-water mark and the id
    counter as they are. *)
Theorem listed_again_enqueues_nothing (env : environment) (fuel fuel' : nat)
    (s s1 s' s1' : mstate) (r : outcome unit)
    (results results' : list s3_object) :
  S3Helper.list_files env fuel S3Config.bucket (S3Config.root +:+ "/pending/") s
  = Some (Ok results, s1) ->
  check_s3 env fuel s = Some (r, s') ->
  S3Helper.list_files env fuel' S3Config.bucket (S3Config.root +:+ "/pending/") s'
  = Some (Ok results', s1') ->
  Forall (fun o => o ∈ results) results' ->
  check_s3 env fuel' s'
  = Some (Ok tt, mk_mstate (main s') (next_id s') (m_trace s1')).
Proof.
  intros Hl Hc Hl' Hsub.
  rewrite (check_s3_ok _ _ _ _ _ Hl) in Hc. simplify_eq.
  rewrite (check_s3_ok _ _ _ _ _ Hl'). cbv zeta. cbn [main next_id].
  assert (Main.max_s3_time
            (Main.set_max_s3_time
               (newest (Main.max_s3_time (main s))
                  (produced (Main.max_s3_time (main s)) results))
               (Main.set_task_queue
                  (Main.task_queue (main s)
                   ++ import_messages (next_id s)
                        (produced (Main.max_s3_time (main s)) results))
                  (main s)))
          = newest (Main.max_s3_time (main s))
              (produced (Main.max_s3_time (main s)) results)) as ->
    by (by destruct (main s)).
  rewrite (produced_again _ _ _ Hsub).
  cbn [import_messages newest length]. rewrite app_nil_r, Z.add_0_r.
  by destruct (main s).
Qed.

Lemma listed_again_enqueues_nothing_witness :
  check_s3 (one_page sample_listing) 1 sample_polled
  = Some (Ok tt,
          mk_mstate (main sample_polled) (next_id sample_polled)
            (m_trace (listed sample_polled))).
Proof.
  apply (listed_again_enqueues_nothing (one_page sample_listing) 1 1
           (polling 20) (listed (polling 20)) sample_polled
           (listed sample_polled) (Ok tt) sample_listing sample_listing).
  - vm_compute. reflexivity.
  - vm_compute. reflexivity.
  - vm_compute. reflexivity.
  - repeat constructor; set_solver.
Defined.

(** X17: [create_test_task] takes the next id and puts one TestTask
    message with a [wait_time] of 2 seconds at the end of the task queue;
    a worker that claims this message sleeps three times two thirds of a
    second, issues no other call and reports [success]. *)
Theorem create_test_task_runs (env : environment) (s : mstate)
    (w : Worker.t) (t : list call) :
  create_test_task s
  = (Ok tt,
     mk_mstate
       (Main.set_task_queue
          (Main.task_queue (main s) ++ [test_message (next_id s + 1) 2])
          (main s))
       (next_id s + 1) (m_trace s))
  /\ claim env (test_message (next_id s + 1) 2) (mk_process w t)
     = (Ok tt,
        mk_process
          (Worker.set_status_queue
             (Worker.status_queue w
              ++ [StatusMessage.mk success (test_message (next_id s + 1) 2)])
             w)
          (t ++ [Sleep 2 3; Sleep 2 3; Sleep 2 3])).
Proof.
  split; [reflexivity|].
  rewrite claim_TestTask; [|reflexivity|by eexists].
  reflexivity.
Qed.

(** ** A claim, seen from the other processes *)

(** What a claim leaves of the queues, whatever the message. *)
Lemma claim_queues (env : environment) (task_message : TaskMessage.t)
    (p : process) :
  Worker.task_queue (p_worker (claim env task_message p).2)
  = Worker.task_queue (p_worker p)
  /\ exists reports,
       Worker.status_queue (p_worker (claim env task_message p).2)
       = Worker.status_queue (p_worker p) ++ reports
       /\ (length reports <= 1)%nat.
Proof.
  unfold claim. destruct (to_task task_message) as [task|e] eqn:Ht.
  - destruct (do_task_reports env (mk_st task (p_worker p) (p_trace p)))
      as (r & s' & Hd & Hsq & Htq & _).
    rewrite Hd. cbn [p_worker self worker snd] in *.
    split; [exact Htq|]. eexists. split; [exact Hsq|]. simpl. lia.
  - split; [reflexivity|]. exists []. rewrite app_nil_r. simpl. split; [done|lia].
Qed.

(** X18: no message is retried or handed on.  When a running worker takes
    a message from the shared task queue, the queue holds exactly the
    messages behind it afterwards, whatever the message is and however its
    execution ends (success, failure, or an exception that ends the
    worker); the worker puts at most one status message on the status
    queue, and the [stop] attributes of the main process and of all other
    workers are as before. *)
Theorem claimed_message_is_not_requeued (env : environment) (i : nat)
    (sys : system) (task_message : TaskMessage.t)
    (rest : list TaskMessage.t) :
  sys_worker_stop sys !! i = Some false ->
  sys_task_queue sys = task_message :: rest ->
  exists r sys' reports,
    system_worker_iteration env i sys = Some (r, sys')
    /\ sys_task_queue sys' = rest
    /\ sys_status_queue sys' = sys_status_queue sys ++ reports
    /\ (length reports <= 1)%nat
    /\ sys_main_stop sys' = sys_main_stop sys
    /\ (forall j, j <> i ->
          sys_worker_stop sys' !! j = sys_worker_stop sys !! j).
Proof.
  intros Hi Hq. destruct sys as [main_stop stops tq sq t].
  cbn [sys_worker_stop sys_task_queue sys_main_stop sys_status_queue] in *.
  subst tq. unfold system_worker_iteration.
  cbn [sys_worker_stop sys_task_queue sys_status_queue sys_main_stop sys_trace].
  rewrite Hi, Worker_iteration_claim.
  destruct (claim_queues env task_message
              (mk_process (Worker.mk rest sq false) t))
    as (Htq & reports & Hsq & Hlen).
  destruct (claim env task_message (mk_process (Worker.mk rest sq false) t))
    as [[[]|e] p2]; cbn [snd p_worker Worker.task_queue Worker.status_queue] in *;
    eexists _, _, reports; (split; [reflexivity|]);
    cbn [sys_worker_stop sys_task_queue sys_status_queue sys_main_stop];
    repeat split; try done;
    intros j Hj; by apply list_lookup_insert_ne.
Qed.

Lemma claimed_message_is_not_requeued_witness :
  exists r sys' reports,
    system_worker_iteration unreachable 1
      (mk_system false [false; false]
         [import_message 1 "pag_estuary/pending/c/mmr_2017"; test_message 2 2]
         [] [])
    = Some (r, sys')
    /\ sys_task_queue sys' = [test_message 2 2]
    /\ sys_status_queue sys' = [] ++ reports
    /\ (length reports <= 1)%nat
    /\ sys_main_stop sys' = false
    /\ (forall j, j <> 1%nat ->
          sys_worker_stop sys' !! j = [false; false] !! j).
Proof.
  apply (claimed_message_is_not_requeued unreachable 1
           (mk_system false [false; false]
              [import_message 1 "pag_estuary/pending/c/mmr_2017";
               test_message 2 2] [] [])
           (import_message 1 "pag_estuary/pending/c/mmr_2017")
           [test_message 2 2]); reflexivity.
Defined.

(** X19: an object that is not newer than the high-water mark is never
    enqueued again, and this includes an object whose [LastModified] is
    equal to the mark: the comparison of [check_s3] is [<=].  However
    many passes [Main.run] has made since, a cycle whose listing contains
    such an object builds no message from it. *)
Theorem object_at_the_mark_is_skipped (env : environment) (n fuel fuel' : nat)
    (s s' s1 : mstate) (r : run_end) (o : s3_object)
    (results : list s3_object) :
  LastModified o <= Main.max_s3_time (main s) ->
  Main_run env n fuel s = Some (r, s') ->
  S3Helper.list_files env fuel' S3Config.bucket (S3Config.root +:+ "/pending/") s'
  = Some (Ok results, s1) ->
  exists s'' objects,
    check_s3 env fuel' s' = Some (Ok tt, s'')
    /\ Main.task_queue (main s'')
       = Main.task_queue (main s') ++ import_messages (next_id s') objects
    /\ objects ⊆ results
    /\ o ∉ objects.
Proof.
  intros Hold Hrun Hl. apply Main_run_mono in Hrun.
  pose proof (check_s3_ok _ _ _ _ _ Hl) as Hc. cbv zeta in Hc.
  eexists _, (produced (Main.max_s3_time (main s')) results).
  split; [exact Hc|].
  split; [by destruct (main s')|].
  split.
  - intros x Hx. unfold produced in Hx. apply list_elem_of_filter in Hx. tauto.
  - intros Hin. apply produced_newer in Hin. lia.
Qed.

Lemma object_at_the_mark_is_skipped_witness :
  exists s'' objects,
    check_s3 (one_page sample_listing) 1 (idle_pass sample_polled)
    = Some (Ok tt, s'')
    /\ Main.task_queue (main s'')
       = Main.task_queue (main (idle_pass sample_polled))
         ++ import_messages (next_id (idle_pass sample_polled)) objects
    /\ objects ⊆ sample_listing
    /\ mk_s3_object "pag_estuary/pending/clientA/late_20170102.csv" 50 10
       ∉ objects.
Proof.
  apply (object_at_the_mark_is_skipped (one_page sample_listing) 1 1 1
           sample_polled (idle_pass sample_polled)
           (listed (idle_pass sample_polled)) Running
           (mk_s3_object "pag_estuary/pending/clientA/late_20170102.csv" 50 10)
           sample_listing).
  - vm_compute. discriminate.
  - vm_compute. reflexivity.
  - vm_compute. reflexivity.
Defined.

(** ** What the main process cannot cause, and what it cannot prevent *)

Lemma Main_run_S (env : environment) (n fuel : nat) (s : mstate) :
  Main_run env (S n) fuel s
  = match Main_iteration env fuel s with
    | Some (Running, s') => Main_run env n fuel s'
    | other => other
    end.
Proof. reflexivity. Qed.

Section Endless.
Context (env : environment) {S : Type} `{HasTrace S}.
Context (page : list s3_object).
Hypothesis always_truncated :
  forall t bucket prefix marker max_keys,
    env_list_objects env t bucket prefix marker max_keys
    = Ok (mk_response (Some page) true).
Hypothesis page_nonempty : page <> [].

Lemma list_files_loop_endless (fuel : nat) :
  forall (bucket prefix marker : string) (acc : list s3_object) (total : Z)
         (s : S),
    S3Helper.list_files_loop env fuel bucket prefix marker acc total s = None.
Proof using All.
  induction fuel as [|fuel IH]; intros bucket prefix marker acc total s;
    [reflexivity|].
  cbn [S3Helper.list_files_loop]. unfold client_list_objects.
  rewrite always_truncated. cbn [Contents IsTruncated].
  destruct (last_nonempty page page_nonempty) as [o ->].
  apply IH.
Qed.
End Endless.

(** X20: [list_files] has no bound on the number of pages.  Against a
    store that marks every response as truncated the loop does not end,
    however many passes it is given; [check_s3] then does not return
    either, and neither does the first pass of [Main.run], which never
    reaches [check_status] or its sleep. *)
Theorem endless_listing_never_returns (env : environment)
    (page : list s3_object) (fuel : nat) (bucket prefix : string)
    (t : list call) (s : mstate) (n : nat) :
  (forall t bucket prefix marker max_keys,
     env_list_objects env t bucket prefix marker max_keys
     = Ok (mk_response (Some page) true)) ->
  page <> [] ->
  Main.stop (main s) = false ->
  Main.looped_functions (main s) = [check_s3_fn; check_status_fn] ->
  S3Helper.list_files env fuel bucket prefix t = None
  /\ check_s3 env fuel s = None
  /\ Main_run env (S n) fuel s = None.
Proof.
  intros Htrunc Hne Hstop Hfs.
  assert (check_s3 env fuel s = None) as Hc.
  { unfold check_s3, S3Helper.list_files.
    by rewrite (list_files_loop_endless env page Htrunc Hne). }
  split; [by apply (list_files_loop_endless env page Htrunc Hne)|].
  split; [exact Hc|].
  rewrite Main_run_S. unfold Main_iteration. rewrite Hstop, Hfs.
  cbn [call_all call_looped]. by rewrite Hc.
Qed.

Lemma endless_listing_never_returns_witness :
  S3Helper.list_files
    (endless [mk_s3_object "pag_estuary/pending/c/mmr_1" 5 10]) 50
    S3Config.bucket "pag_estuary/pending/" []
  = None
  /\ check_s3 (endless [mk_s3_object "pag_estuary/pending/c/mmr_1" 5 10]) 50
       Main_init
     = None
  /\ Main_run (endless [mk_s3_object "pag_estuary/pending/c/mmr_1" 5 10]) 1 50
       Main_init
     = None.
Proof.
  apply (endless_listing_never_returns
           (endless [mk_s3_object "pag_estuary/pending/c/mmr_1" 5 10])
           [mk_s3_object "pag_estuary/pending/c/mmr_1" 5 10] 50
           S3Config.bucket "pag_estuary/pending/" [] Main_init 0).
  - reflexivity.
  - discriminate.
  - reflexivity.
  - reflexivity.
Defined.

Lemma import_messages_convertible (objs : list s3_object) :
  forall id,
    Forall (fun m => exists task, to_task m = Ok task) (import_messages id objs).
Proof.
  induction objs as [|o rest IH]; intros id; simpl; constructor; [|apply IH].
  eexists. apply (to_task_import (id + 1) (Key o)).
Qed.

Lemma convertible_same (s s' : mstate) :
  Main.task_queue (main s') = Main.task_queue (main s) ->
  convertible s -> convertible s'.
Proof. unfold convertible. by intros ->. Qed.

Lemma check_s3_convertible (env : environment) (fuel : nat) (s s' : mstate)
    (r : outcome unit) :
  check_s3 env fuel s = Some (r, s') -> convertible s -> convertible s'.
Proof.
  intros Hc Hf.
  destruct (S3Helper.list_files env fuel S3Config.bucket
              (S3Config.root +:+ "/pending/") s) as [[[results|e] s1]|] eqn:Hl.
  - rewrite (check_s3_ok _ _ _ _ _ Hl) in Hc. simplify_eq.
    unfold convertible in *. destruct (main s) as [tq sq lf mk stop].
    simpl in *. apply Forall_app_2; [done|apply import_messages_convertible].
  - destruct (check_s3_raise _ _ _ _ _ Hl) as (Hc' & Hm & Hn).
    rewrite Hc' in Hc. simplify_eq.
    apply (convertible_same s); [by rewrite Hm|done].
  - unfold check_s3 in Hc. rewrite Hl in Hc. discriminate Hc.
Qed.

Lemma call_all_convertible (env : environment) (fuel : nat)
    (fs : list looped_function) :
  forall s s',
    call_all env fuel fs s = Some s' -> convertible s -> convertible s'.
Proof.
  induction fs as [|f fs IH]; intros s s' Hc Hf; simpl in Hc.
  - by simplify_eq.
  - destruct (call_looped env fuel f s) as [[r s1]|] eqn:Hf1; [|discriminate Hc].
    apply (IH s1); [exact Hc|].
    destruct f; simpl in Hf1.
    + eapply check_s3_convertible; eauto.
    + unfold check_status, modify in Hf1. simplify_eq.
      apply (convertible_same s); [by destruct s as [[]]|done].
Qed.

Lemma Main_iteration_convertible (env : environment) (fuel : nat)
    (s s' : mstate) (r : run_end) :
  Main_iteration env fuel s = Some (r, s') -> convertible s -> convertible s'.
Proof.
  unfold Main_iteration. intros Hi Hf.
  destruct (Main.stop (main s)); [by simplify_eq|].
  destruct (call_all env fuel (Main.looped_functions (main s)) s)
    as [s1|] eqn:Hc; [|discriminate Hi].
  apply call_all_convertible in Hc; [|done].
  unfold time_sleep in Hi. simpl in Hi. simplify_eq.
  by apply (convertible_same s1).
Qed.

(** X21: the main process never enqueues a message that a worker cannot
    turn into a task.  If every message on the task queue converts, this
    is still so after [create_test_task] and after any number of passes of
    [Main.run]: the messages of [check_s3] name the class ImportTask and
    carry [file_path], the one of [create_test_task] names TestTask and
    carries [wait_time].  So the exceptions of [to_task], which end a
    worker, can only come from messages of another producer. *)
Theorem main_enqueues_convertible_messages (env : environment)
    (fuel : nat) (n : nat) :
  forall s,
    convertible s ->
    convertible (create_test_task s).2
    /\ match Main_run env n fuel s with
       | Some (_, s') => convertible s'
       | None => True
       end.
Proof.
  intros s Hf. split.
  - destruct s as [[tq sq lf mk stop] id t]. unfold convertible in *.
    simpl in *. apply Forall_app_2; [done|]. constructor; [|constructor].
    eexists. unfold to_task. cbn [TaskMessage.type].
    rewrite globals_TestTask. unfold TestTask_init. cbn [TaskMessage.args].
    by rewrite lookup_singleton_eq.
  - revert s Hf. induction n as [|n IH]; intros s Hf; simpl; [done|].
    destruct (Main_iteration env fuel s) as [[r1 s1]|] eqn:Hi; [|done].
    pose proof (Main_iteration_convertible _ _ _ _ _ Hi Hf) as Hf1.
    destruct r1; try done. by apply IH.
Qed.

Lemma main_enqueues_convertible_messages_witness :
  convertible (create_test_task Main_init).2
  /\ match Main_run (one_page sample_listing) 2 1 Main_init with
     | Some (_, s') => convertible s'
     | None => True
     end.
Proof.
  apply (main_enqueues_convertible_messages (one_page sample_listing) 1 2
           Main_init).
  constructor.
Defined.
